(** * Path resolution over Terraform provider schemas

    A shallow embedding of the resolution functions of
    [packages/cdktf-cli/bin/cmds/handlers.ts] (the second document of that
    file, the schema path resolver): [getResourceAtPath],
    [getBlockTypeAtPath], [getAttributeTypeAtPath], [resolveAttribute],
    [getTypeAtPath] and [getDesiredType].

    Conventions of the embedding.
    - A JavaScript object used as a dictionary is a [gmap string _] of its own
      properties.  A read [dict[key]] that finds no own property goes on to
      [Object.prototype] ([readProperty]); a call [dict.hasOwnProperty(key)]
      is a call of whatever the dictionary holds under that name
      ([hasOwnProperty]).
    - A property that the code tests for presence before use
      ([provider_schemas], [provider], [block], [block_types], [attributes])
      is an [option]; the others are plain fields.
    - [null] and [undefined] are kept apart where a function can return both.
    - A [TypeError], raised by reading a property of [undefined] or by
      calling a value that is no function, is the [Throw] outcome of the
      [Completion] monad.
    - The array [parts] that the source mutates with [shift] and hands from
      [getResourceAtPath] to its callers is threaded explicitly: every
      function receives the segments still unread and returns what is left. *)

From stdpp Require Import base option gmap strings list.
From Stdlib Require Import Ascii ZArith Lia.

#[local] Set Warnings "-register-all".

(** ** JavaScript strings *)

(** [s.split(sep)] for a one-character separator: never empty, one segment
    more than there are separators. *)
Fixpoint splitOn (sep : ascii) (s : string) : list string :=
  match s with
  | EmptyString => [EmptyString]
  | String c s' =>
      if Ascii.eqb c sep then EmptyString :: splitOn sep s'
      else match splitOn sep s' with
           | seg :: segs => String c seg :: segs
           | [] => [String c EmptyString]
           end
  end.

(** [path.split(".")] *)
Definition split (path : string) : list string := splitOn "."%char path.

(** [segs.join(sep)], the inverse of [splitOn]. *)
Fixpoint joinWith (sep : ascii) (segs : list string) : string :=
  match segs with
  | [] => EmptyString
  | [seg] => seg
  | seg :: segs' => seg +:+ String sep (joinWith sep segs')
  end.

(** [s.endsWith(suffix)]: some tail of [s] is [suffix]. *)
Fixpoint endsWith (s suffix : string) : bool :=
  if String.eqb s suffix then true
  else match s with
       | EmptyString => false
       | String _ s' => endsWith s' suffix
       end.

(** [s.replace(pattern, replacement)] with a string pattern: only the first
    occurrence is replaced. *)
Fixpoint replace (pattern replacement s : string) : string :=
  if String.prefix pattern s
  then replacement +:+ String.substring (String.length pattern)
                         (String.length s - String.length pattern) s
  else match s with
       | EmptyString => EmptyString
       | String c s' => String c (replace pattern replacement s')
       end.

(** [parts.shift()]: the first element, [undefined] on an empty array, and
    the array that is left. *)
Definition shift (parts : list string) : option string * list string :=
  match parts with
  | [] => (None, [])
  | part :: rest => (Some part, rest)
  end.

(** A value used as a property key or inside a template literal is converted
    to a string; [undefined] becomes the text "undefined". *)
Definition propertyKey (part : option string) : string :=
  match part with
  | Some s => s
  | None => "undefined"
  end.

(** ** Outcomes *)

Inductive Error : Type :=
| TypeError (reading : string)
    (* Cannot read properties of undefined (reading '...') *)
| NotAFunction (name : string).
    (* TypeError: ....<name> is not a function *)

Inductive Completion (A : Type) : Type :=
| Return (value : A)
| Throw (error : Error).

Arguments Return {A} value.
Arguments Throw {A} error.

#[global] Instance Completion_ret : MRet Completion := @Return.
#[global] Instance Completion_bind : MBind Completion :=
  fun A B f c => match c with
                 | Return a => f a
                 | Throw e => Throw e
                 end.

(** [o.name] where [o] may be [undefined]. *)
Definition reading {A : Type} (name : string) (o : option A) : Completion A :=
  match o with
  | Some a => Return a
  | None => Throw (TypeError name)
  end.

(** A result that is a value, [null] or [undefined]. *)
Inductive Nullish (A : Type) : Type :=
| Defined (value : A)
| Null
| Undefined.

Arguments Defined {A} value.
Arguments Null {A}.
Arguments Undefined {A}.

(** [x] where [x] may be [undefined]. *)
Definition orUndefined {A : Type} (x : option A) : Nullish A :=
  match x with
  | Some a => Defined a
  | None => Undefined
  end.

(** ** Objects read as dictionaries *)

(** What a plain object inherits from [Object.prototype]: the methods, and
    the prototype itself through the accessor [__proto__].  Such a value is
    truthy; it is neither a string nor an array; and it has none of the
    properties that the source reads of a value it found ([provider],
    [resource_schemas], [data_source_schemas], [block], [type],
    [version]). *)
Inductive PrototypeMember : Type :=
| ObjectPrototype
| Method (name : string).

Definition prototypeMethods : list string :=
  ["constructor"; "hasOwnProperty"; "isPrototypeOf"; "propertyIsEnumerable";
   "toLocaleString"; "toString"; "valueOf"; "__defineGetter__";
   "__defineSetter__"; "__lookupGetter__"; "__lookupSetter__"].

Definition inheritedMember (key : string) : option PrototypeMember :=
  if String.eqb key "__proto__" then Some ObjectPrototype
  else if existsb (String.eqb key) prototypeMethods then Some (Method key)
  else None.

(** What a read finds: an entry of the dictionary, or a member of
    [Object.prototype]. *)
Inductive Read (A : Type) : Type :=
| Entry (value : A)
| Member (member : PrototypeMember).

Arguments Entry {A} value.
Arguments Member {A} member.

(** [dict[key]]: the own property if there is one, otherwise what
    [Object.prototype] holds under the name; [None] is [undefined]. *)
Definition readProperty {A : Type} (dict : gmap string A) (key : string)
  : option (Read A) :=
  match dict !! key with
  | Some value => Some (Entry value)
  | None => Member <$> inheritedMember key
  end.

(** [dict.hasOwnProperty(key)]: the method is itself read from the dictionary.
    An entry named "hasOwnProperty" hides the method of [Object.prototype],
    and the call of an entry, which is no function, fails. *)
Definition hasOwnProperty {A : Type} (dict : gmap string A) (key : string)
  : Completion bool :=
  match dict !! "hasOwnProperty" with
  | Some _ => Throw (NotAFunction "hasOwnProperty")
  | None => Return (bool_decide (is_Some (dict !! key)))
  end.

(** ** The provider schema *)

(** Modelled from the spec: the declarations [ProviderSchema], [Schema],
    [BlockType], [Attribute] and [AttributeType] of the package
    [@cdktf/provider-generator], which the source imports.  A primitive type
    is a string tag; a complex type is a two-element array, either
    [[kind, element]] with kind list, set or map, or [["object", members]]. *)
Inductive CollectionKind : Type := KList | KSet | KMap.

Inductive AttributeType : Type :=
| TPrimitive (tag : string)
| TCollection (kind : CollectionKind) (element : AttributeType)
| TObject (members : gmap string AttributeType).

(** What stands at index 1 of a descriptor array: an element type, or the
    member dictionary of an object descriptor. *)
Inductive Slot : Type :=
| SType (t : AttributeType)
| SMembers (members : gmap string AttributeType).

Definition kindName (kind : CollectionKind) : string :=
  match kind with
  | KList => "list"
  | KSet => "set"
  | KMap => "map"
  end.

(** The array view of a type: [None] for a string tag ([Array.isArray] is
    false), otherwise the elements at index 0 and index 1. *)
Definition descriptor (t : AttributeType) : option (string * Slot) :=
  match t with
  | TPrimitive _ => None
  | TCollection kind element => Some (kindName kind, SType element)
  | TObject members => Some ("object", SMembers members)
  end.

Definition isArray (t : AttributeType) : bool :=
  match descriptor t with
  | Some _ => true
  | None => false
  end.

(** An attribute; [T] is the type of its [type] field, [AttributeType] for a
    declared attribute. *)
Record AttributeOf (T : Type) : Type := mkAttribute {
  type : T;
  description : option string;
  required : option bool;
  optional : option bool;
  computed : option bool
}.

Arguments mkAttribute {T}.
Arguments type {T}.
Arguments description {T}.
Arguments required {T}.
Arguments optional {T}.
Arguments computed {T}.

Abbreviation Attribute := (AttributeOf AttributeType).

Inductive Block : Type := mkBlock {
  attributes : option (gmap string Attribute);
  block_types : option (gmap string BlockType)
}
with BlockType : Type := mkBlockType {
  nesting_mode : option string;
  min_items : option Z;
  max_items : option Z;
  blocktype_block : option Block
}.

Record Schema : Type := mkSchema {
  version : option Z;
  schema_block : option Block
}.

Record Provider : Type := mkProvider {
  provider : option Schema;
  resource_schemas : gmap string Schema;
  data_source_schemas : gmap string Schema
}.

Record ProviderSchema : Type := mkProviderSchema {
  format_version : option string;
  provider_schemas : option (gmap string Provider)
}.

(** Modelled from the spec: the [Scope] of [./types]; the resolver reads
    nothing but the active provider schema. *)
Record Scope : Type := mkScope {
  providerSchema : ProviderSchema
}.

(** The variable [currentSchema] of the two walkers: the value located by
    [getResourceAtPath] at first, which is a schema or, when the read of the
    resource found no entry, a member of [Object.prototype]; a nested block
    type after a descent. *)
Inductive Container : Type :=
| CSchema (s : Schema)
| CBlockType (b : BlockType)
| CMember (member : PrototypeMember).

(** [currentSchema.block]: both [Schema] and [BlockType] carry a [block]
    property, held in the fields [schema_block] and [blocktype_block]; a
    member of [Object.prototype] has none. *)
Definition block (c : Container) : option Block :=
  match c with
  | CSchema s => schema_block s
  | CBlockType b => blocktype_block b
  | CMember _ => None
  end.

(** ["version" in value] *)
Definition hasVersion (c : Container) : bool :=
  match c with
  | CSchema s => bool_decide (is_Some (version s))
  | CBlockType _ => false
  | CMember _ => false
  end.

(** A value read where a schema is expected. *)
Definition asContainer (found : Read Schema) : Container :=
  match found with
  | Entry s => CSchema s
  | Member member => CMember member
  end.

(** What [getTypeAtPath] returns when it returns a value; a member of
    [Object.prototype] comes from the unguarded read of [resolveAttribute]. *)
Inductive TypeResult : Type :=
| RContainer (c : Container)
| RAttributeType (t : AttributeType)
| RMember (member : PrototypeMember).

(** The object [{ resource, parts }] built by [getResourceAtPath]. *)
Record Located : Type := mkLocated {
  resource : option Container;
  parts : list string
}.

(** ** The resolution functions *)

Section Resolver.

(** Modelled from the spec: [getFullProviderName] of [./provider], the
    external resolver from a provider short name to the key of the provider in
    [provider_schemas], absent when no provider matches. *)
Variable getFullProviderName : ProviderSchema -> string -> option string.

(** [!fullProviderName]: [undefined] and the empty string are falsy. *)
Definition truthyName (name : option string) : option string :=
  match name with
  | Some EmptyString => None
  | other => other
  end.

(** [getResourceAtPath].  After the length check the array holds at least two
    segments, so the optional [shift] of the "data" marker and the [shift]
    that reads [providerName] always find a segment, and the two are written
    as one step; the [shift] that reads [resourceName] finds none when the
    path was "data.<name>", and [resourceName] is then [undefined].

    The two dictionaries are read without a guard.  A key of
    [provider_schemas] that is no entry but a name of [Object.prototype] gives
    a value that is truthy and has none of the properties of a provider:
    [provider.provider] is [undefined], and so is the dictionary of its
    resources, whose read then fails.  A resource read the same way is kept as
    it is. *)
Definition getResourceAtPath (schema : ProviderSchema) (path : string)
  : Completion (option Located) :=
  match split path with
  | [] | [_] => Return None
  | first :: second :: others =>
      let isDataSource := String.eqb first "data" in
      let '(providerName, parts) :=
        if isDataSource then (second, others) else (first, second :: others) in
      let '(resourceName, parts) := shift parts in
      let fullProviderName := getFullProviderName schema providerName in
      let fullResourceName := providerName +:+ "_" +:+ propertyKey resourceName in
      match truthyName fullProviderName with
      | None => Return None
      | Some fullProviderName =>
          match provider_schemas schema
                  ≫= (fun providers => readProperty providers fullProviderName) with
          | None => Return None
          | Some found =>
              (* [found] is the constant [provider] of the source *)
              resourceName ← reading "endsWith" resourceName;
              match found with
              | Entry entry =>
                  if endsWith resourceName "Provider"
                  then Return (Some (mkLocated (CSchema <$> provider entry) parts))
                  else
                    let resources :=
                      if isDataSource then data_source_schemas entry
                      else resource_schemas entry in
                    match readProperty resources fullResourceName with
                    | None => Return None
                    | Some resource =>
                        match parts with
                        | [] => Return None
                        | _ => Return (Some (mkLocated (Some (asContainer resource))
                                               parts))
                        end
                    end
              | Member _ =>
                  if endsWith resourceName "Provider"
                  then Return (Some (mkLocated None parts))
                  else Throw (TypeError fullResourceName)
              end
          end
      end
  end.

(** [currentSchema.block.block_types] behind the guards [currentSchema],
    [currentSchema.block] and [currentSchema.block.block_types] of the two
    walkers. *)
Definition blockTypesOf (currentSchema : option Container)
  : option (gmap string BlockType) :=
  currentSchema ← currentSchema;
  block ← block currentSchema;
  block_types block.

(** [currentSchema.block.attributes] behind the guards of [getTypeAtPath]. *)
Definition attributesOf (currentSchema : option Container)
  : option (gmap string Attribute) :=
  currentSchema ← currentSchema;
  block ← block currentSchema;
  attributes block.

(** [currentSchema.block.block_types[part]] behind the guards of the two
    walkers, the last of which is the call
    [currentSchema.block.block_types.hasOwnProperty(part)]. *)
Definition blockTypeNamed (currentSchema : option Container) (part : option string)
  : Completion (option BlockType) :=
  match blockTypesOf currentSchema with
  | None => Return None
  | Some block_types =>
      owned ← hasOwnProperty block_types (propertyKey part);
      Return (if owned : bool then block_types !! propertyKey part else None)
  end.

(** [currentSchema.block.attributes[part]] behind the guards of
    [getTypeAtPath], the last of which is the call
    [currentSchema.block.attributes.hasOwnProperty(part)]. *)
Definition attributeNamed (currentSchema : option Container) (part : option string)
  : Completion (option Attribute) :=
  match attributesOf currentSchema with
  | None => Return None
  | Some attributes =>
      owned ← hasOwnProperty attributes (propertyKey part);
      Return (if owned : bool then attributes !! propertyKey part else None)
  end.

(** The [do ... while (parts.length > 0)] loop of [getBlockTypeAtPath], entered
    with the segment just shifted. *)
Fixpoint blockTypeLoop (currentSchema : option Container) (part : option string)
    (parts : list string) : Completion (option Container) :=
  next ← blockTypeNamed currentSchema part;
  match next with
  | None => Return None
  | Some next =>
      let currentSchema := Some (CBlockType next) in
      match parts with
      | [] => Return currentSchema
      | part :: parts => blockTypeLoop currentSchema (Some part) parts
      end
  end.

(** [getBlockTypeAtPath]; [None] is [null]. *)
Definition getBlockTypeAtPath (schema : ProviderSchema) (path : string)
  : Completion (option Container) :=
  resourceSchema ← getResourceAtPath schema path;
  match resourceSchema with
  | None => Return None
  | Some located =>
      let '(part, parts) := shift (parts located) in
      blockTypeLoop (resource located) part parts
  end.

(** [{ ...attribute, type: value }] *)
Definition withType {T U : Type} (attribute : AttributeOf T) (value : U)
  : AttributeOf U :=
  mkAttribute value (description attribute) (required attribute)
    (optional attribute) (computed attribute).

(** An attribute returned as declared, seen at the result type of
    [getAttributeTypeAtPath]. *)
Definition declared (attribute : Attribute) : AttributeOf Slot :=
  withType attribute (SType (type attribute)).

(** [getAttributeTypeAtPath].  The read [attributes[attributeName]] has no
    guard: a name that is no entry but a name of [Object.prototype] gives a
    member of it, which has no [type] and is returned as it is. *)
Definition getAttributeTypeAtPath (schema : ProviderSchema) (path : string)
  : Completion (Nullish (Read (AttributeOf Slot))) :=
  resourceSchema ← getResourceAtPath schema path;
  match resourceSchema with
  | None => Return Null
  | Some located =>
      resource ← reading "block" (resource located);
      block ← reading "attributes" (block resource);
      let attributes := attributes block in
      match parts located with
      | [part] =>
          let attributeName := replace "[]" "" part in
          attributes ← reading attributeName attributes;
          match readProperty attributes attributeName with
          | Some (Entry attribute) =>
              match descriptor (type attribute) with
              | Some (_, element) =>
                  if endsWith path "[]"
                  then Return (Defined (Entry (withType attribute element)))
                  else Return (Defined (Entry (declared attribute)))
              | None => Return (Defined (Entry (declared attribute)))
              end
          | Some (Member member) => Return (Defined (Member member))
          | None => Return Undefined
          end
      | _ => Return Null
      end
  end.

(** The [do ... while] loop of [resolveAttribute], entered with the segment
    just shifted.  The test of the source reads, on the array view of the
    type: [Array.isArray(currentAtt)] and [currentAtt.length === 2], a
    descriptor; [currentAtt[0] === "set" || currentAtt[0] === "list"], its
    kind; [Array.isArray(currentAtt[1])] and [currentAtt[1][0] === "object"],
    an object descriptor as its element, whose member dictionary
    [currentAtt[1][1]] is then read at the segment, without a guard.  A member
    of [Object.prototype] read there is no array and fails the test at the
    next segment. *)
Fixpoint resolveLoop (currentAtt : option (Read AttributeType)) (part : string)
    (parts : list string) : Nullish (Read AttributeType) :=
  match currentAtt with
  | Some (Entry (TCollection kind (TObject members))) =>
      match kind with
      | KSet | KList =>
          let currentAtt := readProperty members part in
          match parts with
          | [] => orUndefined currentAtt
          | part :: parts => resolveLoop currentAtt part parts
          end
      | KMap => Null
      end
  | _ => Null
  end.

(** [resolveAttribute] *)
Definition resolveAttribute (att : Attribute) (parts : list string)
  : Nullish (Read AttributeType) :=
  match parts with
  | [] => Defined (Entry (type att))
  | part :: parts => resolveLoop (Some (Entry (type att))) part parts
  end.

Definition asTypeResult (r : Nullish (Read AttributeType)) : Nullish TypeResult :=
  match r with
  | Defined (Entry t) => Defined (RAttributeType t)
  | Defined (Member member) => Defined (RMember member)
  | Null => Null
  | Undefined => Undefined
  end.

(** The [do ... while] loop of [getTypeAtPath], entered with the segment just
    shifted. *)
Fixpoint typeLoop (currentSchema : option Container) (part : option string)
    (parts : list string) : Completion (Nullish TypeResult) :=
  next ← blockTypeNamed currentSchema part;
  match next with
  | Some next =>
      let currentSchema := Some (CBlockType next) in
      match parts with
      | [] => Return (orUndefined (RContainer <$> currentSchema))
      | part :: parts => typeLoop currentSchema (Some part) parts
      end
  | None =>
      attribute ← attributeNamed currentSchema part;
      match attribute with
      | Some attribute => Return (asTypeResult (resolveAttribute attribute parts))
      | None => Return Null
      end
  end.

(** [getTypeAtPath] *)
Definition getTypeAtPath (schema : ProviderSchema) (path : string)
  : Completion (Nullish TypeResult) :=
  resourceSchema ← getResourceAtPath schema path;
  match resourceSchema with
  | None => Return Null
  | Some located =>
      let '(part, parts) := shift (parts located) in
      typeLoop (resource located) part parts
  end.

(** The branches of [getDesiredType], in the order the source tests them. *)
Inductive Branch : Type :=
| NotDefined       (* !attributeType *)
| Primitive        (* typeof attributeType === "string" *)
| Complex          (* Array.isArray(attributeType) *)
| SchemaShaped     (* "version" in attributeType *)
| BlockShaped.     (* the remaining case, logged to the console *)

Definition branchOf (attributeType : Nullish TypeResult) : Branch :=
  match attributeType with
  | Null | Undefined => NotDefined
  | Defined (RAttributeType (TPrimitive EmptyString)) => NotDefined
  | Defined (RAttributeType (TPrimitive _)) => Primitive
  | Defined (RAttributeType _) => Complex
  | Defined (RContainer c) => if hasVersion c then SchemaShaped else BlockShaped
  | Defined (RMember _) => BlockShaped
  end.

Definition dynamic : AttributeType := TPrimitive "dynamic".

(** The value returned for an outcome of [getTypeAtPath]. *)
Definition desiredTypeOf (attributeType : Nullish TypeResult) : AttributeType :=
  match branchOf attributeType, attributeType with
  | (Primitive | Complex), Defined (RAttributeType t) => t
  | _, _ => dynamic
  end.

(** [getDesiredType] *)
Definition getDesiredType (scope : Scope) (path : string)
  : Completion AttributeType :=
  attributeType ← getTypeAtPath (providerSchema scope) path;
  Return (desiredTypeOf attributeType).

End Resolver.

(** ** Example schemas *)

Module Fixtures.

Definition plain (t : AttributeType) : Attribute :=
  mkAttribute t None None (Some true) None.

Definition stringT : AttributeType := TPrimitive "string".
Definition numberT : AttributeType := TPrimitive "number".

(** A resolver that maps a short name to its key in the public registry
    namespace when the schema has such a provider. *)
Definition registryName (schema : ProviderSchema) (providerName : string)
  : option string :=
  let key := "registry.terraform.io/hashicorp/" +:+ providerName in
  match provider_schemas schema ≫= (.!! key) with
  | Some _ => Some key
  | None => None
  end.

Definition ebs_block_device : BlockType :=
  mkBlockType (Some "set") None None
    (Some (mkBlock (Some {[ "device_name" := plain stringT ]}) None)).

Definition ingressT : AttributeType :=
  TCollection KSet
    (TObject {[ "cidr_blocks" := TCollection KList stringT;
                "from_port" := numberT ]}).

Definition aws_instance : Schema :=
  mkSchema (Some 1%Z)
    (Some (mkBlock
       (Some {[ "tags" := plain (TCollection KMap stringT);
                "ami" := plain stringT;
                "security_groups" := plain (TCollection KSet stringT);
                "ingress" := plain ingressT;
                "shape" := plain (TObject {[ "name" := stringT ]}) ]})
       (Some {[ "ebs_block_device" := ebs_block_device ]}))).

Definition aws_ami : Schema :=
  mkSchema (Some 0%Z)
    (Some (mkBlock (Some {[ "id" := plain stringT ]}) (Some ∅))).

Definition awsConfiguration : Schema :=
  mkSchema (Some 0%Z)
    (Some (mkBlock (Some {[ "region" := plain stringT ]}) (Some ∅))).

Definition awsKey : string := "registry.terraform.io/hashicorp/aws".

(** A resolver that maps every short name to the key of the aws provider. *)
Definition alwaysAws (schema : ProviderSchema) (providerName : string)
  : option string :=
  Some awsKey.

Definition awsEntry : Provider :=
  mkProvider (Some awsConfiguration)
    {[ "aws_instance" := aws_instance ]}
    {[ "aws_ami" := aws_ami ]}.

Definition bareEntry : Provider :=
  mkProvider None
    {[ "aws_instance" := aws_instance ]}
    {[ "aws_ami" := aws_ami ]}.

Definition awsSchema : ProviderSchema :=
  mkProviderSchema (Some "1.0")
    (Some {[ awsKey := awsEntry ]}).

(** The same provider without a configuration block of its own. *)
Definition bareSchema : ProviderSchema :=
  mkProviderSchema (Some "1.0")
    (Some {[ awsKey := bareEntry ]}).

(** A block that declares the name "tags" twice: as a nested block and as an
    attribute. *)
Definition tagsBlock : BlockType :=
  mkBlockType (Some "list") None (Some 1%Z)
    (Some (mkBlock (Some {[ "key" := plain stringT ]}) None)).

Definition colliding : Schema :=
  mkSchema (Some 1%Z)
    (Some (mkBlock (Some {[ "tags" := plain (TCollection KMap stringT) ]})
                   (Some {[ "tags" := tagsBlock ]}))).

(** A provider whose resource "aws_instance" is [colliding]. *)
Definition collidingSchema : ProviderSchema :=
  mkProviderSchema (Some "1.0")
    (Some {[ awsKey := mkProvider None {[ "aws_instance" := colliding ]} ∅ ]}).

(** The same block with one more nested block, named "hasOwnProperty". *)
Definition clashing : Schema :=
  mkSchema (Some 1%Z)
    (Some (mkBlock (Some {[ "tags" := plain (TCollection KMap stringT) ]})
                   (Some {[ "tags" := tagsBlock;
                            "hasOwnProperty" := tagsBlock ]}))).

Definition clashingSchema : ProviderSchema :=
  mkProviderSchema (Some "1.0")
    (Some {[ awsKey := mkProvider None {[ "aws_instance" := clashing ]} ∅ ]}).

(** A resolver whose answer is a name of [Object.prototype]. *)
Definition alwaysConstructor (schema : ProviderSchema) (providerName : string)
  : option string :=
  Some "constructor".

End Fixtures.

(** ** Notions used by the statements *)

(** The member dictionary of a type that can be indexed further: a
    two-element descriptor whose kind is list or set and whose element is an
    object descriptor.  Follows the wording of the specification, to be
    compared with the test made by [resolveLoop]. *)
Definition listOrSetOfObject (t : AttributeType)
  : option (gmap string AttributeType) :=
  match t with
  | TCollection KList (TObject members) => Some members
  | TCollection KSet (TObject members) => Some members
  | _ => None
  end.

(** The member dictionary that the loop of [resolveAttribute] reads in a value
    it holds: that of a list or a set of an object; a member of
    [Object.prototype] has none. *)
Definition indexable (currentAtt : Read AttributeType)
  : option (gmap string AttributeType) :=
  match currentAtt with
  | Entry t => listOrSetOfObject t
  | Member _ => None
  end.

(** The character [c] occurs in [s]. *)
Fixpoint mentions (c : ascii) (s : string) : bool :=
  match s with
  | EmptyString => false
  | String d s' => Ascii.eqb d c || mentions c s'
  end.

(** [child] is an entry of the [block_types] dictionary of [c]. *)
Definition childOf (c : Container) (child : BlockType) : Prop :=
  exists (b : Block) (nested : gmap string BlockType) (name : string),
    block c = Some b /\ block_types b = Some nested /\ nested !! name = Some child.

(** [b] is reached from [c] through one or more [block_types] dictionaries. *)
Inductive descends : Container -> BlockType -> Prop :=
| descends_child (c : Container) (b : BlockType) :
    childOf c b -> descends c b
| descends_step (c : Container) (next b : BlockType) :
    childOf c next -> descends (CBlockType next) b -> descends c b.


(** The container [c] with its [attributes] dictionary replaced. *)
Definition withAttributes (replacement : option (gmap string Attribute))
    (c : Container) : Container :=
  let swap (b : Block) := mkBlock replacement (block_types b) in
  match c with
  | CSchema s => CSchema (mkSchema (version s) (swap <$> schema_block s))
  | CBlockType b =>
      CBlockType (mkBlockType (nesting_mode b) (min_items b) (max_items b)
                    (swap <$> blocktype_block b))
  | CMember member => CMember member
  end.

(** The entry of a dictionary that may be missing. *)
Definition entryOf {A : Type} (dict : option (gmap string A)) (name : string)
  : option A :=
  dict ≫= (.!! name).

(** Where the walk through nested blocks stands after the segments [front],
    started from [start]. *)
Definition reached (start : Container) (front : list string)
  : Completion (option Container) :=
  match front with
  | [] => Return (Some start)
  | part :: parts => blockTypeLoop (Some start) (Some part) parts
  end.

(** The segments ahead of the provider name. *)
Definition dataMarker (isDataSource : bool) : list string :=
  if isDataSource then ["data"] else [].

(** The dictionary of a provider entry that a path is looked up in. *)
Definition schemasOf (isDataSource : bool) (entry : Provider)
  : gmap string Schema :=
  if isDataSource then data_source_schemas entry else resource_schemas entry.

(** What a provider entry holds for "<provider>.<name>": its configuration
    block when the name ends with "Provider", otherwise what the read of
    "<provider>_<name>" finds in its resources or data sources. *)
Definition namedBy (isDataSource : bool) (entry : Provider)
    (providerName resourceName : string) : option Container :=
  if endsWith resourceName "Provider" then CSchema <$> provider entry
  else asContainer
         <$> readProperty (schemasOf isDataSource entry)
               (providerName +:+ "_" +:+ resourceName).

(** Resolution taken up again from a value [getTypeAtPath] returned: the loop
    of [getTypeAtPath] from a container, the loop of [resolveAttribute] from
    a type; a member of [Object.prototype] is no array and cannot be
    indexed. *)
Definition continueFrom (result : TypeResult) (segments : list string)
  : Completion (Nullish TypeResult) :=
  match segments with
  | [] => Return (Defined result)
  | segment :: rest =>
      match result with
      | RContainer c => typeLoop (Some c) (Some segment) rest
      | RAttributeType t =>
          Return (asTypeResult (resolveLoop (Some (Entry t)) segment rest))
      | RMember _ => Return Null
      end
  end.

(** ** The provider requirements of [convert] *)

(** A promise that is settled. *)
Inductive Promise (A : Type) : Type :=
| Resolved (value : A)
| Rejected (reason : string).

Arguments Resolved {A} value.
Arguments Rejected {A} reason.

(** What [findFileAboveCwd("cdktf.json")] and [fs.readJson] give
    [getProviderRequirements]: no file above the working directory; a file
    that cannot be read, for which [readJson] rejects; a file that holds the
    JSON value [null]; or any other document, of which only
    [terraformProviders] is looked at ([None] when it is not an array). *)
Inductive CdktfJson (T : Type) : Type :=
| NoFile
| Unreadable (reason : string)
| NullDocument
| Document (terraformProviders : option (list T)).

Arguments NoFile {T}.
Arguments Unreadable {T} reason.
Arguments NullDocument {T}.
Arguments Document {T} terraformProviders.

Section ProviderRequirements.

(** The entries of the arrays; the function moves them and never looks at
    them. *)
Variable T : Type.

(** [array.push(...elements)] on the array stored at a reference. *)
Definition push (array : nat) (elements : list T) (heap : gmap nat (list T))
  : gmap nat (list T) :=
  alter (fun held => held ++ elements) array heap.

(** [getProviderRequirements]: [items] is the array [provider] itself, not a
    copy; the function returns that reference and the heap it leaves. *)
Definition getProviderRequirements (provider : nat) (cdktfJson : CdktfJson T)
    (heap : gmap nat (list T)) : Promise (nat * gmap nat (list T)) :=
  let items := provider in
  match cdktfJson with
  | NoFile => Resolved (items, heap)
  | Unreadable reason => Rejected reason
  | NullDocument => Rejected "TypeError: reading 'terraformProviders' of null"
  | Document terraformProviders =>
      match terraformProviders with
      | Some listed => Resolved (items, push items listed heap)
      | None => Resolved (items, heap)
      end
  end.

(** The entries that a call moves into its argument. *)
Definition listedIn (cdktfJson : CdktfJson T) : list T :=
  match cdktfJson with
  | Document (Some listed) => listed
  | _ => []
  end.

End ProviderRequirements.

Arguments listedIn {T} cdktfJson.
Arguments push {T} array elements heap.
Arguments getProviderRequirements {T} provider cdktfJson heap.

(** ** Strings: splitting, joining and suffixes *)

Lemma splitOn_not_nil (sep : ascii) (s : string) : splitOn sep s <> [].
Proof.
  destruct s as [|c s]; simpl; [discriminate|].
  destruct (Ascii.eqb c sep); [discriminate|].
  destruct (splitOn sep s); discriminate.
Qed.

Lemma joinWith_cons (sep : ascii) (seg : string) (segs : list string) :
  segs <> [] ->
  joinWith sep (seg :: segs) = seg +:+ String sep (joinWith sep segs).
Proof. destruct segs; [congruence|reflexivity]. Qed.

Lemma joinWith_splitOn (sep : ascii) (s : string) :
  joinWith sep (splitOn sep s) = s.
Proof.
  induction s as [|c s IH]; [reflexivity|].
  cbn [splitOn]. destruct (Ascii.eqb_spec c sep) as [->|_].
  - rewrite joinWith_cons by apply splitOn_not_nil.
    now rewrite IH.
  - pose proof (splitOn_not_nil sep s) as Hne.
    destruct (splitOn sep s) as [|seg segs]; [congruence|].
    rewrite <- IH. destruct segs; reflexivity.
Qed.

Lemma append_String (c : ascii) (s t : string) :
  String c s +:+ t = String c (s +:+ t).
Proof. reflexivity. Qed.


Lemma endsWith_refl (s : string) : endsWith s s = true.
Proof. destruct s; cbn [endsWith]; now rewrite String.eqb_refl. Qed.

Lemma endsWith_append (front s suffix : string) :
  endsWith s suffix = true -> endsWith (front +:+ s) suffix = true.
Proof.
  intros H. induction front as [|c front IH]; [exact H|].
  rewrite append_String. cbn [endsWith]. now destruct (String.eqb _ suffix).
Qed.


(** For a name without "[", the segment "name[]" ends with the marker and is
    cleaned to the name. *)
Lemma replace_trailing_marker (name : string) :
  mentions "["%char name = false ->
  endsWith (name +:+ "[]") "[]" = true
  /\ replace "[]" "" (name +:+ "[]") = name.
Proof.
  intros Hname. split; [apply endsWith_append, endsWith_refl|].
  induction name as [|c name IH]; [reflexivity|].
  cbn [mentions] in Hname. apply orb_false_iff in Hname as [Hc Hname].
  rewrite append_String. cbn [replace String.prefix].
  destruct (ascii_dec "["%char c) as [<-|_]; [discriminate Hc|].
  now rewrite IH.
Qed.

Lemma bind_Return {A B : Type} (f : A -> Completion B) (a : A) :
  (Return a ≫= f) = f a.
Proof. reflexivity. Qed.

Lemma bind_Throw {A B : Type} (f : A -> Completion B) (e : Error) :
  (Throw e ≫= f) = Throw e.
Proof. reflexivity. Qed.

(** Unfold the sequencing of completions. *)
Ltac run_completion :=
  unfold mbind, Completion_bind, mret, Completion_ret, reading in *.

Lemma truthyName_Some (key : string) :
  key <> EmptyString -> truthyName (Some key) = Some key.
Proof. now destruct key. Qed.

Lemma truthyName_inv (name : option string) (key : string) :
  truthyName name = Some key -> name = Some key /\ key <> EmptyString.
Proof. destruct name as [[|c s]|]; cbn; intros [= <-]; now split. Qed.


(** ** Reading dictionaries *)

Lemma readProperty_own {A : Type} (dict : gmap string A) (key : string)
    (value : A) :
  dict !! key = Some value -> readProperty dict key = Some (Entry value).
Proof. intros H. unfold readProperty. now rewrite H. Qed.

Lemma readProperty_missing {A : Type} (dict : gmap string A) (key : string) :
  dict !! key = None ->
  readProperty dict key = Member <$> inheritedMember key.
Proof. intros H. unfold readProperty. now rewrite H. Qed.

Lemma readProperty_None {A : Type} (dict : gmap string A) (key : string) :
  readProperty dict key = None
  <-> dict !! key = None /\ inheritedMember key = None.
Proof.
  unfold readProperty.
  destruct (dict !! key), (inheritedMember key); cbn; split;
    try discriminate; try (intros [? ?]; discriminate); auto.
Qed.

Lemma readProperty_Entry {A : Type} (dict : gmap string A) (key : string)
    (value : A) :
  readProperty dict key = Some (Entry value) <-> dict !! key = Some value.
Proof.
  unfold readProperty.
  destruct (dict !! key), (inheritedMember key); cbn; split;
    intros H; try discriminate H; now simplify_eq.
Qed.

Lemma readProperty_Member {A : Type} (dict : gmap string A) (key : string)
    (member : PrototypeMember) :
  readProperty dict key = Some (Member member)
  <-> dict !! key = None /\ inheritedMember key = Some member.
Proof.
  unfold readProperty.
  destruct (dict !! key), (inheritedMember key); cbn; split;
    try discriminate; try (intros [? ?]; discriminate).
  - intros [= ->]. auto.
  - intros [_ [= ->]]. reflexivity.
Qed.

(** A dictionary without an entry named "hasOwnProperty" answers the call
    with the method of [Object.prototype]. *)
Lemma hasOwnProperty_inherited {A : Type} (dict : gmap string A) (key : string) :
  dict !! "hasOwnProperty" = None ->
  hasOwnProperty dict key = Return (bool_decide (is_Some (dict !! key))).
Proof. intros H. unfold hasOwnProperty. now rewrite H. Qed.

(** A dictionary with such an entry fails the call. *)
Lemma hasOwnProperty_hidden {A : Type} (dict : gmap string A) (key : string) :
  is_Some (dict !! "hasOwnProperty") ->
  hasOwnProperty dict key = Throw (NotAFunction "hasOwnProperty").
Proof. intros [value H]. unfold hasOwnProperty. now rewrite H. Qed.

Lemma hasOwnProperty_raises {A : Type} (dict : gmap string A) (key : string)
    (e : Error) :
  hasOwnProperty dict key = Throw e -> e = NotAFunction "hasOwnProperty".
Proof.
  unfold hasOwnProperty. destruct (dict !! "hasOwnProperty"); congruence.
Qed.

Lemma lookup_if_owned {A : Type} (dict : gmap string A) (key : string) :
  (if bool_decide (is_Some (dict !! key)) then dict !! key else None)
  = dict !! key.
Proof.
  case_bool_decide as H; [reflexivity|].
  destruct (dict !! key); [destruct H; eauto | reflexivity].
Qed.

(** ** Locating the resource *)

Section Properties.

Variable getFullProviderName : ProviderSchema -> string -> option string.

(** An entry of [provider_schemas] is what the read of its key finds. *)
Lemma provider_entry_read (schema : ProviderSchema) (key : string)
    (entry : Provider) :
  provider_schemas schema ≫= (.!! key) = Some entry ->
  provider_schemas schema ≫= (fun providers => readProperty providers key)
  = Some (Entry entry).
Proof.
  destruct (provider_schemas schema) as [providers|]; [|discriminate].
  cbn. apply readProperty_own.
Qed.

(** The segments handed on by [getResourceAtPath] are the last segments of the
    path. *)
Lemma getResourceAtPath_suffix (schema : ProviderSchema) (path : string)
    (located : Located) :
  getResourceAtPath getFullProviderName schema path = Return (Some located) ->
  exists before, split path = before ++ parts located.
Proof.
  unfold getResourceAtPath.
  destruct (split path) as [|first [|second others]]; try discriminate.
  destruct (String.eqb first "data"); [destruct others as [|third others]|];
    cbn [shift]; intros H; run_completion;
    repeat case_match; simplify_eq; cbn [parts];
    first [now exists [first; second; third] | now exists [first; second]].
Qed.

(** A path "<provider>.<name>.<segment>. ...", with "data" ahead of it for a
    data source, whose provider is an entry of the schema: what the provider
    holds for the name is handed on with the segments behind it. *)
Lemma getResourceAtPath_named (schema : ProviderSchema) (path : string)
    (isDataSource : bool) (providerName resourceName seg key : string)
    (rest : list string) (entry : Provider) (found : Container) :
  split path
  = dataMarker isDataSource ++ providerName :: resourceName :: seg :: rest ->
  (isDataSource = false -> providerName <> "data") ->
  getFullProviderName schema providerName = Some key ->
  key <> "" ->
  provider_schemas schema ≫= (.!! key) = Some entry ->
  namedBy isDataSource entry providerName resourceName = Some found ->
  getResourceAtPath getFullProviderName schema path
  = Return (Some (mkLocated (Some found) (seg :: rest))).
Proof.
  intros Hsplit Hplain Hname Hkey Hentry Hfound.
  apply provider_entry_read in Hentry.
  unfold getResourceAtPath. rewrite Hsplit. unfold namedBy in Hfound.
  assert (String.eqb (hd "" (dataMarker isDataSource ++ [providerName]))
            "data" = isDataSource) as Hmarker.
  { destruct isDataSource; [reflexivity|].
    now apply String.eqb_neq, Hplain. }
  destruct isDataSource; cbn [dataMarker app hd schemasOf] in *;
    rewrite Hmarker; cbv beta iota zeta; cbn [shift propertyKey];
    rewrite Hname, (truthyName_Some _ Hkey), Hentry;
    cbn [reading]; rewrite bind_Return;
    (destruct (endsWith resourceName "Provider");
     [ now rewrite Hfound
     | destruct (readProperty _ _) as [read|]; [|discriminate Hfound];
       cbn in Hfound; now injection Hfound as <- ]).
Qed.

(** A path "<provider>.<name>Provider. ...": the provider's own block, with
    whatever segments are left, none included. *)
Lemma getResourceAtPath_provider (schema : ProviderSchema) (path : string)
    (providerName resourceName key : string) (rest : list string)
    (entry : Provider) :
  split path = providerName :: resourceName :: rest ->
  providerName <> "data" ->
  getFullProviderName schema providerName = Some key ->
  key <> "" ->
  provider_schemas schema ≫= (.!! key) = Some entry ->
  endsWith resourceName "Provider" = true ->
  getResourceAtPath getFullProviderName schema path
  = Return (Some (mkLocated (CSchema <$> provider entry) rest)).
Proof.
  intros Hsplit Hdata Hname Hkey Hentry Hsuffix.
  apply provider_entry_read in Hentry.
  unfold getResourceAtPath. rewrite Hsplit.
  apply String.eqb_neq in Hdata. rewrite Hdata. cbn [shift propertyKey].
  rewrite Hname, (truthyName_Some _ Hkey), Hentry.
  cbn [reading]. rewrite bind_Return, Hsuffix. reflexivity.
Qed.

(** A path "data.<provider>" whose provider is known: [resourceName] is
    [undefined] when its [endsWith] method is called. *)
Lemma getResourceAtPath_data_pair (schema : ProviderSchema) (path : string)
    (providerName key : string) (entry : Provider) :
  split path = ["data"; providerName] ->
  getFullProviderName schema providerName = Some key ->
  key <> "" ->
  provider_schemas schema ≫= (.!! key) = Some entry ->
  getResourceAtPath getFullProviderName schema path
  = Throw (TypeError "endsWith").
Proof.
  intros Hsplit Hname Hkey Hentry.
  apply provider_entry_read in Hentry.
  unfold getResourceAtPath. rewrite Hsplit.
  change (String.eqb "data" "data") with true. cbn [shift propertyKey].
  rewrite Hname, (truthyName_Some _ Hkey), Hentry. reflexivity.
Qed.

(** Fewer than two segments: nothing is located. *)
Lemma getResourceAtPath_short (schema : ProviderSchema) (path : string) :
  length (split path) < 2 ->
  getResourceAtPath getFullProviderName schema path = Return None.
Proof.
  intros Hshort. unfold getResourceAtPath.
  destruct (split path) as [|first [|second others]]; cbn in Hshort;
    [reflexivity | reflexivity | lia].
Qed.

(** ** The walkers *)

Lemma blockTypesOf_block (c : Container) (b : Block) :
  block c = Some b -> blockTypesOf (Some c) = block_types b.
Proof. intros Hb. unfold blockTypesOf. cbn. now rewrite Hb. Qed.

Lemma attributesOf_block (c : Container) (b : Block) :
  block c = Some b -> attributesOf (Some c) = attributes b.
Proof. intros Hb. unfold attributesOf. cbn. now rewrite Hb. Qed.

(** The guarded read of a nested block, when the call of [hasOwnProperty]
    reaches the method of [Object.prototype]. *)
Lemma blockTypeNamed_inherited (currentSchema : option Container)
    (part : option string) :
  entryOf (blockTypesOf currentSchema) "hasOwnProperty" = None ->
  blockTypeNamed currentSchema part
  = Return (entryOf (blockTypesOf currentSchema) (propertyKey part)).
Proof.
  unfold blockTypeNamed, entryOf.
  destruct (blockTypesOf currentSchema) as [nested|]; [|reflexivity].
  cbn. intros Hsafe.
  now rewrite (hasOwnProperty_inherited _ _ Hsafe), bind_Return, lookup_if_owned.
Qed.

Lemma attributeNamed_inherited (currentSchema : option Container)
    (part : option string) :
  entryOf (attributesOf currentSchema) "hasOwnProperty" = None ->
  attributeNamed currentSchema part
  = Return (entryOf (attributesOf currentSchema) (propertyKey part)).
Proof.
  unfold attributeNamed, entryOf.
  destruct (attributesOf currentSchema) as [declaredAttributes|]; [|reflexivity].
  cbn. intros Hsafe.
  now rewrite (hasOwnProperty_inherited _ _ Hsafe), bind_Return, lookup_if_owned.
Qed.

(** The same read when the dictionary has an entry named "hasOwnProperty". *)
Lemma blockTypeNamed_hidden (currentSchema : option Container)
    (part : option string) :
  is_Some (entryOf (blockTypesOf currentSchema) "hasOwnProperty") ->
  blockTypeNamed currentSchema part = Throw (NotAFunction "hasOwnProperty").
Proof.
  unfold blockTypeNamed, entryOf.
  destruct (blockTypesOf currentSchema) as [nested|]; cbn;
    [|intros [? ?]; discriminate].
  intros Hclash. now rewrite (hasOwnProperty_hidden _ _ Hclash).
Qed.

Lemma blockTypeNamed_raises (currentSchema : option Container)
    (part : option string) (e : Error) :
  blockTypeNamed currentSchema part = Throw e ->
  e = NotAFunction "hasOwnProperty".
Proof.
  unfold blockTypeNamed.
  destruct (blockTypesOf currentSchema) as [nested|]; [|discriminate].
  destruct (hasOwnProperty nested (propertyKey part)) as [owned|e'] eqn:Hcall;
    rewrite ?bind_Return, ?bind_Throw; [discriminate|].
  intros [= <-]. exact (hasOwnProperty_raises _ _ _ Hcall).
Qed.

Lemma attributeNamed_raises (currentSchema : option Container)
    (part : option string) (e : Error) :
  attributeNamed currentSchema part = Throw e ->
  e = NotAFunction "hasOwnProperty".
Proof.
  unfold attributeNamed.
  destruct (attributesOf currentSchema) as [declaredAttributes|]; [|discriminate].
  destruct (hasOwnProperty declaredAttributes (propertyKey part))
    as [owned|e'] eqn:Hcall;
    rewrite ?bind_Return, ?bind_Throw; [discriminate|].
  intros [= <-]. exact (hasOwnProperty_raises _ _ _ Hcall).
Qed.

(** A nested block read behind the guards is an entry of the [block_types] of
    the current node. *)
Lemma blockTypeNamed_childOf (currentSchema : option Container)
    (part : option string) (next : BlockType) :
  blockTypeNamed currentSchema part = Return (Some next) ->
  exists c : Container, currentSchema = Some c /\ childOf c next.
Proof.
  unfold blockTypeNamed, blockTypesOf.
  destruct currentSchema as [c|]; [|discriminate]. cbn.
  destruct (block c) as [b|] eqn:Hb; [|discriminate]. cbn.
  destruct (block_types b) as [nested|] eqn:Hn; [|discriminate].
  destruct (hasOwnProperty nested (propertyKey part)) as [[|]|e];
    rewrite ?bind_Return, ?bind_Throw; try discriminate.
  intros [= Hnext]. exists c. split; [reflexivity|].
  now exists b, nested, (propertyKey part).
Qed.

Lemma blockTypesOf_withAttributes (replacement : option (gmap string Attribute))
    (c : Container) :
  blockTypesOf (Some (withAttributes replacement c)) = blockTypesOf (Some c).
Proof.
  unfold blockTypesOf. cbn.
  destruct c as [s|b|member]; cbn.
  - now destruct (schema_block s).
  - now destruct (blocktype_block b).
  - reflexivity.
Qed.

(** One iteration of the loop of [getTypeAtPath] that finds a nested block. *)
Lemma typeLoop_block (currentSchema : option Container) (part : option string)
    (rest : list string) (next : BlockType) :
  blockTypeNamed currentSchema part = Return (Some next) ->
  typeLoop currentSchema part rest
  = match rest with
    | [] => Return (Defined (RContainer (CBlockType next)))
    | part' :: rest' => typeLoop (Some (CBlockType next)) (Some part') rest'
    end.
Proof. intros H. destruct rest; cbn [typeLoop]; now rewrite H. Qed.

(** One iteration that finds no nested block. *)
Lemma typeLoop_attribute (currentSchema : option Container)
    (part : option string) (rest : list string) :
  blockTypeNamed currentSchema part = Return None ->
  typeLoop currentSchema part rest
  = (attribute ← attributeNamed currentSchema part;
     match attribute with
     | Some attribute => Return (asTypeResult (resolveAttribute attribute rest))
     | None => Return Null
     end).
Proof. intros H. destruct rest; cbn [typeLoop]; now rewrite H. Qed.

(** One iteration in which the call of [hasOwnProperty] fails. *)
Lemma typeLoop_raise (currentSchema : option Container) (part : option string)
    (rest : list string) (e : Error) :
  blockTypeNamed currentSchema part = Throw e ->
  typeLoop currentSchema part rest = Throw e.
Proof. intros H. destruct rest; cbn [typeLoop]; now rewrite H. Qed.

Lemma blockTypeLoop_block (currentSchema : option Container)
    (part : option string) (rest : list string) (next : BlockType) :
  blockTypeNamed currentSchema part = Return (Some next) ->
  blockTypeLoop currentSchema part rest
  = match rest with
    | [] => Return (Some (CBlockType next))
    | part' :: rest' => blockTypeLoop (Some (CBlockType next)) (Some part') rest'
    end.
Proof. intros H. destruct rest; cbn [blockTypeLoop]; now rewrite H. Qed.

Lemma blockTypeLoop_none (currentSchema : option Container)
    (part : option string) (rest : list string) :
  blockTypeNamed currentSchema part = Return None ->
  blockTypeLoop currentSchema part rest = Return None.
Proof. intros H. destruct rest; cbn [blockTypeLoop]; now rewrite H. Qed.

Lemma blockTypeLoop_raise (currentSchema : option Container)
    (part : option string) (rest : list string) (e : Error) :
  blockTypeNamed currentSchema part = Throw e ->
  blockTypeLoop currentSchema part rest = Throw e.
Proof. intros H. destruct rest; cbn [blockTypeLoop]; now rewrite H. Qed.

(** What an attribute resolves to is no container. *)
Lemma asTypeResult_not_container (r : Nullish (Read AttributeType))
    (c : Container) :
  asTypeResult r <> Defined (RContainer c).
Proof. destruct r as [[t|member]| |]; discriminate. Qed.

(** A container returned by the loop is a nested block type below the
    container the loop started from. *)
Lemma typeLoop_container (rest : list string) :
  forall (currentSchema : option Container) (part : option string)
         (result : Container),
    typeLoop currentSchema part rest = Return (Defined (RContainer result)) ->
    exists (c : Container) (b : BlockType),
      currentSchema = Some c /\ result = CBlockType b /\ descends c b.
Proof.
  induction rest as [|part' rest IH]; intros currentSchema part result;
    destruct (blockTypeNamed currentSchema part) as [[next|]|e] eqn:Hnext;
    rewrite ?(typeLoop_block _ _ _ _ Hnext), ?(typeLoop_attribute _ _ _ Hnext),
      ?(typeLoop_raise _ _ _ _ Hnext);
    try discriminate;
    try (destruct (attributeNamed currentSchema part) as [[attribute|]|e];
         rewrite ?bind_Return, ?bind_Throw; try discriminate;
         intros [= H]; now apply asTypeResult_not_container in H).
  - intros [= <-].
    destruct (blockTypeNamed_childOf _ _ _ Hnext) as (c & -> & Hchild).
    exists c, next. auto using descends_child.
  - intros Hrest.
    destruct (IH _ _ _ Hrest) as (c' & b & [= <-] & -> & Hdesc).
    destruct (blockTypeNamed_childOf _ _ _ Hnext) as (c & -> & Hchild).
    exists c, b. eauto using descends_step.
Qed.

(** [getTypeAtPath] is the loop run on what [getResourceAtPath] located. *)
Lemma getTypeAtPath_located (schema : ProviderSchema) (path : string)
    (located : Located) :
  getResourceAtPath getFullProviderName schema path = Return (Some located) ->
  getTypeAtPath getFullProviderName schema path
  = typeLoop (resource located)
      (fst (shift (parts located))) (snd (shift (parts located))).
Proof.
  intros H. unfold getTypeAtPath. rewrite H, bind_Return.
  now destruct (shift (parts located)).
Qed.

Lemma getTypeAtPath_inv (schema : ProviderSchema) (path : string)
    (result : TypeResult) :
  getTypeAtPath getFullProviderName schema path = Return (Defined result) ->
  exists located,
    getResourceAtPath getFullProviderName schema path = Return (Some located)
    /\ typeLoop (resource located)
         (fst (shift (parts located))) (snd (shift (parts located)))
       = Return (Defined result).
Proof.
  unfold getTypeAtPath.
  destruct (getResourceAtPath getFullProviderName schema path)
    as [[located|]|e]; rewrite ?bind_Return, ?bind_Throw; try discriminate.
  destruct (shift (parts located)) as [part rest] eqn:Hshift. intros H.
  exists located. now rewrite Hshift.
Qed.

(** The loop of [getBlockTypeAtPath] entered with no segment left reads
    [undefined] as its segment. *)
Lemma getBlockTypeAtPath_located (schema : ProviderSchema) (path : string)
    (located : Located) :
  getResourceAtPath getFullProviderName schema path = Return (Some located) ->
  getBlockTypeAtPath getFullProviderName schema path
  = blockTypeLoop (resource located)
      (fst (shift (parts located))) (snd (shift (parts located))).
Proof.
  intros H. unfold getBlockTypeAtPath. rewrite H, bind_Return.
  now destruct (shift (parts located)).
Qed.

(** ** Paths too short to name a resource *)

(** C9. A path that splits on "." into fewer than two segments is resolved by
    no entry point: [getResourceAtPath], [getBlockTypeAtPath],
    [getAttributeTypeAtPath] and [getTypeAtPath] return [null], and
    [getDesiredType] returns the dynamic sentinel. *)
Theorem short_path_resolves_to_absent (schema : ProviderSchema) (scope : Scope)
    (path : string) :
  length (split path) < 2 ->
  getResourceAtPath getFullProviderName schema path = Return None
  /\ getBlockTypeAtPath getFullProviderName schema path = Return None
  /\ getAttributeTypeAtPath getFullProviderName schema path = Return Null
  /\ getTypeAtPath getFullProviderName schema path = Return Null
  /\ getDesiredType getFullProviderName scope path = Return dynamic.
Proof.
  intros Hshort.
  pose proof (fun schema => getResourceAtPath_short schema path Hshort) as Hnone.
  unfold getBlockTypeAtPath, getAttributeTypeAtPath, getDesiredType, getTypeAtPath.
  rewrite !Hnone. repeat split; reflexivity.
Qed.

(** ** Indexing into an attribute *)

Lemma resolveLoop_members (kind : CollectionKind)
    (members : gmap string AttributeType) (part : string) (rest : list string) :
  kind <> KMap ->
  resolveLoop (Some (Entry (TCollection kind (TObject members)))) part rest
  = match rest with
    | [] => orUndefined (readProperty members part)
    | part' :: rest' => resolveLoop (readProperty members part) part' rest'
    end.
Proof. intros Hkind. destruct kind, rest; cbn; congruence. Qed.

Lemma resolveLoop_not_indexable (t : AttributeType) (part : string)
    (rest : list string) :
  listOrSetOfObject t = None -> resolveLoop (Some (Entry t)) part rest = Null.
Proof.
  destruct t as [tag|kind element|members]; try (now destruct rest).
  destruct element as [tag|kind' element'|members]; try (now destruct rest).
  destruct kind; cbn; try discriminate. now destruct rest.
Qed.

Lemma resolveLoop_undefined (part : string) (rest : list string) :
  resolveLoop None part rest = Null.
Proof. now destruct rest. Qed.

(** A member of [Object.prototype] is no array: it cannot be indexed. *)
Lemma resolveLoop_member (member : PrototypeMember) (part : string)
    (rest : list string) :
  resolveLoop (Some (Member member)) part rest = Null.
Proof. now destruct rest. Qed.

Lemma listOrSetOfObject_Some (t : AttributeType)
    (members : gmap string AttributeType) :
  listOrSetOfObject t = Some members ->
  exists kind : CollectionKind,
    t = TCollection kind (TObject members) /\ kind <> KMap.
Proof.
  destruct t as [tag|kind element|members']; try discriminate.
  destruct kind, element; try discriminate; intros [= <-];
    (eexists; split; [reflexivity|discriminate]).
Qed.

(** C4. [resolveAttribute] with nothing left returns the declared type as it
    is.  With a segment left it returns [null] unless the type is a list or a
    set of an object; for such a type the segment is read as a member name and
    resolution goes on from the member with the segments that follow.  A
    segment that names no member gives [null] when segments follow; when it
    was the last one it gives [undefined], unless it is a name of
    [Object.prototype]: the read has no guard, and the value returned is then
    the inherited member.  So a list of objects with one member "name" of type
    "string" resolves "name" to "string", but "constructor", which is no
    member of the object, to the function [Object] and not to [undefined]. *)
Theorem resolveAttribute_unfold (att : Attribute) (part : string)
    (rest : list string) :
  resolveAttribute att [] = Defined (Entry (type att))
  /\ resolveAttribute att (part :: rest)
     = match listOrSetOfObject (type att) with
       | None => Null
       | Some members =>
           match members !! part with
           | Some member => resolveAttribute (withType att member) rest
           | None =>
               match rest with
               | [] => match inheritedMember part with
                       | Some inherited => Defined (Member inherited)
                       | None => Undefined
                       end
               | _ :: _ => Null
               end
           end
       end
  /\ resolveAttribute
       (withType att
          (TCollection KList (TObject {[ "name" := TPrimitive "string" ]})))
       [part]
     = (if decide (part = "name") then Defined (Entry (TPrimitive "string"))
        else match inheritedMember part with
             | Some inherited => Defined (Member inherited)
             | None => Undefined
             end)
  /\ resolveAttribute
       (withType att
          (TCollection KList (TObject {[ "name" := TPrimitive "string" ]})))
       ["constructor"]
     = Defined (Member (Method "constructor")).
Proof.
  split; [reflexivity|]. split; [|split; [|reflexivity]].
  - cbn [resolveAttribute].
    destruct (listOrSetOfObject (type att)) as [members|] eqn:Hshape.
    + apply listOrSetOfObject_Some in Hshape as (kind & -> & Hkind).
      rewrite resolveLoop_members by assumption. unfold readProperty.
      destruct (members !! part) as [member|], rest as [|part' rest];
        cbn; try reflexivity.
      * now destruct (inheritedMember part).
      * destruct (inheritedMember part); cbn;
          auto using resolveLoop_undefined, resolveLoop_member.
    + now apply resolveLoop_not_indexable.
  - cbn. unfold readProperty. case_decide as Hname.
    + subst part. now rewrite lookup_singleton_eq.
    + rewrite lookup_singleton_ne by congruence.
      now destruct (inheritedMember part).
Qed.

(** ** Blocks before attributes *)

(** The loop of [getTypeAtPath] follows that of [getBlockTypeAtPath] as long
    as nested blocks are found. *)
Lemma typeLoop_reached (front : list string) :
  forall (currentSchema : option Container) (part : option string)
         (node : Container) (name : string) (rest : list string),
    blockTypeLoop currentSchema part front = Return (Some node) ->
    typeLoop currentSchema part (front ++ name :: rest)
    = typeLoop (Some node) (Some name) rest.
Proof.
  induction front as [|part' front IH];
    intros currentSchema part node name rest;
    destruct (blockTypeNamed currentSchema part) as [[next|]|e] eqn:Hnext;
    rewrite ?(blockTypeLoop_block _ _ _ _ Hnext),
      ?(blockTypeLoop_none _ _ _ Hnext), ?(blockTypeLoop_raise _ _ _ _ Hnext);
    try discriminate.
  - intros [= <-]. cbn [app]. now rewrite (typeLoop_block _ _ _ _ Hnext).
  - intros Hfront.
    change ((part' :: front) ++ name :: rest)
      with (part' :: (front ++ name :: rest)).
    rewrite (typeLoop_block _ _ _ _ Hnext). now apply IH.
Qed.

(** C5. The walk of [getTypeAtPath] that stands at a node whose block declares
    the next segment both as a nested block and as an attribute.  When the
    [block_types] of the node has no entry named "hasOwnProperty", the walk
    descends into the nested block: it returns the nested block when the
    segment was the last one and otherwise goes on from the nested block, and
    the outcome is the same whatever the [attributes] dictionary of the node
    holds.  When [block_types] has such an entry, the guard
    [block_types.hasOwnProperty(part)] calls that entry and the walk raises
    instead of descending. *)
Theorem nested_block_shadows_attribute (schema : ProviderSchema) (path : string)
    (start node : Container) (front : list string) (name : string)
    (rest : list string) (b : Block) (nested : gmap string BlockType)
    (declaredAttributes : gmap string Attribute) :
  getResourceAtPath getFullProviderName schema path
  = Return (Some (mkLocated (Some start) (front ++ name :: rest))) ->
  reached start front = Return (Some node) ->
  block node = Some b ->
  block_types b = Some nested ->
  attributes b = Some declaredAttributes ->
  is_Some (nested !! name) ->
  is_Some (declaredAttributes !! name) ->
  getTypeAtPath getFullProviderName schema path
  = typeLoop (Some node) (Some name) rest
  /\ match nested !! "hasOwnProperty" with
     | Some _ =>
         getTypeAtPath getFullProviderName schema path
         = Throw (NotAFunction "hasOwnProperty")
     | None =>
         exists next : BlockType,
           nested !! name = Some next
           /\ getTypeAtPath getFullProviderName schema path
              = match rest with
                | [] => Return (Defined (RContainer (CBlockType next)))
                | part :: rest' =>
                    typeLoop (Some (CBlockType next)) (Some part) rest'
                end
           /\ forall replacement : option (gmap string Attribute),
                typeLoop (Some (withAttributes replacement node)) (Some name) rest
                = typeLoop (Some node) (Some name) rest
     end.
Proof.
  intros Hlocated Hreached Hb Hnested _ [next Hnext] _.
  assert (getTypeAtPath getFullProviderName schema path
          = typeLoop (Some node) (Some name) rest) as Hwalk.
  { rewrite (getTypeAtPath_located _ _ _ Hlocated). cbn [resource parts].
    destruct front as [|part front]; cbn [reached app shift fst snd] in *.
    - now injection Hreached as <-.
    - now apply typeLoop_reached. }
  split; [exact Hwalk|].
  pose proof (blockTypesOf_block node b Hb) as Htypes.
  rewrite Hnested in Htypes.
  destruct (nested !! "hasOwnProperty") as [clash|] eqn:Hclash.
  - rewrite Hwalk. apply typeLoop_raise, blockTypeNamed_hidden.
    rewrite Htypes. cbn. rewrite Hclash. eauto.
  - assert (blockTypeNamed (Some node) (Some name) = Return (Some next))
      as Hfound.
    { rewrite blockTypeNamed_inherited; rewrite Htypes; cbn; congruence. }
    exists next. split; [exact Hnext|]. split.
    + rewrite Hwalk. now apply typeLoop_block.
    + intros replacement.
      rewrite !(typeLoop_block _ _ _ next); try assumption; [reflexivity|].
      unfold blockTypeNamed in *.
      now rewrite blockTypesOf_withAttributes.
Qed.

(** ** What [getTypeAtPath] can return *)

(** C10. [getTypeAtPath] never returns the resource schema that
    [getResourceAtPath] located, and [getDesiredType] never takes its
    ["version" in attributeType] branch.  A value it returns is a block type
    reached from what was located through one or more [block_types]
    dictionaries, a primitive type tag, a descriptor array, or, through the
    unguarded read of [resolveAttribute], a member of [Object.prototype]. *)
Theorem getTypeAtPath_never_resource_schema (schema : ProviderSchema)
    (path : string) (outcome : Nullish TypeResult) :
  getTypeAtPath getFullProviderName schema path = Return outcome ->
  branchOf outcome <> SchemaShaped
  /\ forall result : TypeResult,
       outcome = Defined result ->
       (forall s : Schema, result <> RContainer (CSchema s))
       /\ ((exists (located : Located) (found : Container) (b : BlockType),
              getResourceAtPath getFullProviderName schema path
              = Return (Some located)
              /\ resource located = Some found
              /\ result = RContainer (CBlockType b)
              /\ descends found b)
           \/ (exists tag : string, result = RAttributeType (TPrimitive tag))
           \/ (exists t : AttributeType,
                 result = RAttributeType t /\ isArray t = true)
           \/ (exists member : PrototypeMember, result = RMember member)).
Proof.
  intros Hreturn.
  assert (forall result : TypeResult,
             outcome = Defined result ->
             (exists (located : Located) (found : Container) (b : BlockType),
                 getResourceAtPath getFullProviderName schema path
                 = Return (Some located)
                 /\ resource located = Some found
                 /\ result = RContainer (CBlockType b)
                 /\ descends found b)
             \/ (exists t : AttributeType, result = RAttributeType t)
             \/ (exists member : PrototypeMember, result = RMember member))
    as Hshape.
  { intros result ->.
    destruct (getTypeAtPath_inv _ _ _ Hreturn) as (located & Hlocated & Hloop).
    destruct result as [c|t|member];
      [left | right; left; now exists t | right; right; now exists member].
    destruct (typeLoop_container _ _ _ _ Hloop) as (found & b & Hfound & -> & Hdesc).
    now exists located, found, b. }
  split.
  - destruct outcome as [result| |]; try discriminate.
    destruct (Hshape result eq_refl)
      as [(_ & _ & b & _ & _ & -> & _)|[[t ->]|[member ->]]].
    + discriminate.
    + destruct t as [[|c tag]|kind element|members]; discriminate.
    + discriminate.
  - intros result Houtcome.
    destruct (Hshape result Houtcome)
      as [(located & found & b & H)|[[t ->]|[member ->]]].
    + split; [|left; now exists located, found, b].
      destruct H as (_ & _ & -> & _). discriminate.
    + split; [discriminate|right].
      destruct t as [tag|kind element|members];
        [left; now exists tag | right; left; eauto | right; left; eauto].
    + split; [discriminate|]. right. right. right. now exists member.
Qed.

(** ** The element marker *)


(** ** The number of segments left for an attribute *)

Lemma getAttributeTypeAtPath_not_located (schema : ProviderSchema)
    (path : string) :
  getResourceAtPath getFullProviderName schema path = Return None ->
  getAttributeTypeAtPath getFullProviderName schema path = Return Null.
Proof. intros H. unfold getAttributeTypeAtPath. now rewrite H. Qed.

(** With a resource that has a block, any number of segments other than one
    gives [null]. *)
Lemma getAttributeTypeAtPath_count (schema : ProviderSchema) (path : string)
    (found : Container) (b : Block) (rest : list string) :
  getResourceAtPath getFullProviderName schema path
  = Return (Some (mkLocated (Some found) rest)) ->
  block found = Some b ->
  length rest <> 1 ->
  getAttributeTypeAtPath getFullProviderName schema path = Return Null.
Proof.
  intros Hlocated Hblock Hcount. unfold getAttributeTypeAtPath.
  rewrite Hlocated, bind_Return. cbn [resource parts reading].
  rewrite bind_Return, Hblock. cbn [reading]. rewrite bind_Return.
  destruct rest as [|part [|part' rest]]; cbn in Hcount; congruence.
Qed.

(** [resource.block] is read before the segments are counted: without a
    resource the read fails, whatever the number of segments. *)
Lemma getAttributeTypeAtPath_without_resource (schema : ProviderSchema)
    (path : string) (rest : list string) :
  getResourceAtPath getFullProviderName schema path
  = Return (Some (mkLocated None rest)) ->
  getAttributeTypeAtPath getFullProviderName schema path
  = Throw (TypeError "block").
Proof. intros Hlocated. unfold getAttributeTypeAtPath. now rewrite Hlocated. Qed.

(** A value is returned only when exactly one segment was left. *)
Lemma getAttributeTypeAtPath_defined (schema : ProviderSchema) (path : string)
    (result : Read (AttributeOf Slot)) :
  getAttributeTypeAtPath getFullProviderName schema path
  = Return (Defined result) ->
  exists (found : Container) (seg : string),
    getResourceAtPath getFullProviderName schema path
    = Return (Some (mkLocated (Some found) [seg])).
Proof.
  unfold getAttributeTypeAtPath.
  destruct (getResourceAtPath getFullProviderName schema path)
    as [[[[found|] rest]|]|e]; run_completion; cbn [resource parts];
    try discriminate.
  destruct (block found) as [b|]; [|discriminate].
  destruct rest as [|seg [|seg' rest]]; try discriminate.
  intros _. now exists found, seg.
Qed.

(** ** Failures are handed on *)

(** An exception raised while locating the resource leaves every entry point
    as it is. *)
Lemma raise_propagates (schema : ProviderSchema) (path : string) (e : Error) :
  getResourceAtPath getFullProviderName schema path = Throw e ->
  getBlockTypeAtPath getFullProviderName schema path = Throw e
  /\ getAttributeTypeAtPath getFullProviderName schema path = Throw e
  /\ getTypeAtPath getFullProviderName schema path = Throw e
  /\ getDesiredType getFullProviderName (mkScope schema) path = Throw e.
Proof.
  intros H.
  unfold getDesiredType, getBlockTypeAtPath, getAttributeTypeAtPath, getTypeAtPath.
  cbn [providerSchema]. rewrite H. repeat split; reflexivity.
Qed.

(** ** Classifying the outcome *)

Lemma getDesiredType_classifies (scope : Scope) (path : string)
    (outcome : Nullish TypeResult) :
  getTypeAtPath getFullProviderName (providerSchema scope) path = Return outcome ->
  getDesiredType getFullProviderName scope path = Return (desiredTypeOf outcome).
Proof. intros H. unfold getDesiredType. now rewrite H. Qed.

(** The sentinel for an absent outcome, a schema, a block or a member of
    [Object.prototype]; the type itself for a primitive tag (the empty string
    is falsy) and for a descriptor. *)
Lemma desiredTypeOf_cases (outcome : Nullish TypeResult) :
  match outcome with
  | Null | Undefined | Defined (RContainer _) | Defined (RMember _) =>
      desiredTypeOf outcome = dynamic
  | Defined (RAttributeType (TPrimitive tag)) =>
      tag <> "" -> desiredTypeOf outcome = TPrimitive tag
  | Defined (RAttributeType t) => desiredTypeOf outcome = t
  end.
Proof.
  destruct outcome as [[c|[[|ch tag]|kind element|members]|member]| |];
    try reflexivity; try congruence.
  unfold desiredTypeOf, branchOf. now destruct (hasVersion c).
Qed.

(** ** The examples of the specification *)

(** A single segment after the resource that names an attribute and no nested
    block resolves to the declared type of the attribute, when neither
    dictionary has an entry named "hasOwnProperty". *)
Lemma getTypeAtPath_attribute (schema : ProviderSchema) (path name : string)
    (found : Container) (b : Block) (attribute : Attribute) :
  getResourceAtPath getFullProviderName schema path
  = Return (Some (mkLocated (Some found) [name])) ->
  block found = Some b ->
  entryOf (attributes b) name = Some attribute ->
  entryOf (attributes b) "hasOwnProperty" = None ->
  entryOf (block_types b) name = None ->
  entryOf (block_types b) "hasOwnProperty" = None ->
  getTypeAtPath getFullProviderName schema path
  = Return (Defined (RAttributeType (type attribute))).
Proof.
  intros Hlocated Hblock Hattribute Hsafe Hnested Hsafe'.
  rewrite (getTypeAtPath_located _ _ _ Hlocated). cbn [resource parts shift fst snd].
  rewrite typeLoop_attribute.
  - rewrite attributeNamed_inherited;
      rewrite (attributesOf_block found b Hblock); [|exact Hsafe].
    cbn [propertyKey]. now rewrite Hattribute.
  - rewrite blockTypeNamed_inherited;
      rewrite (blockTypesOf_block found b Hblock); [|exact Hsafe'].
    cbn [propertyKey]. now rewrite Hnested.
Qed.

(** The paths "aws_instance.tags" and "data.aws_ami.id" hold two segments
    after the "data" marker: the second is read as the resource name and the
    key looked up is "aws_instance_tags" or "aws_ami_id".  Whatever the schema
    and the resolver, no value is located: should the key exist, no segment is
    left for a property. *)
Lemma underscore_examples_locate_nothing (schema : ProviderSchema)
    (located : Located) :
  getResourceAtPath getFullProviderName schema "aws_instance.tags"
  <> Return (Some located)
  /\ getResourceAtPath getFullProviderName schema "data.aws_ami.id"
     <> Return (Some located).
Proof.
  unfold getResourceAtPath. split.
  - change (split "aws_instance.tags") with ["aws_instance"; "tags"].
    cbv beta iota zeta.
    change (String.eqb "aws_instance" "data") with false.
    cbv beta iota zeta delta [shift].
    destruct (truthyName _) as [key|]; [|discriminate].
    destruct (_ ≫= _) as [[entry|member]|]; [| |discriminate];
      cbn [reading]; rewrite bind_Return;
      change (endsWith "tags" "Provider") with false; cbv iota;
      [|discriminate].
    destruct (readProperty _ _); discriminate.
  - change (split "data.aws_ami.id") with ["data"; "aws_ami"; "id"].
    cbv beta iota zeta.
    change (String.eqb "data" "data") with true.
    cbv beta iota zeta delta [shift].
    destruct (truthyName _) as [key|]; [|discriminate].
    destruct (_ ≫= _) as [[entry|member]|]; [| |discriminate];
      cbn [reading]; rewrite bind_Return;
      change (endsWith "id" "Provider") with false; cbv iota;
      [|discriminate].
    destruct (readProperty _ _); discriminate.
Qed.

(** C2, as amended. With the provider and the resource written as two
    segments, the examples resolve when the resolver maps "aws" to the key of
    a provider of the schema.  If that provider defines the resource
    "aws_instance", whose block declares the attribute "tags" of type map of
    string and no nested block of that name, "aws.instance.tags" resolves to
    that type.  If it defines the data source "aws_ami", whose block declares
    the attribute "id" of type string and no nested block of that name,
    "data.aws.ami.id" resolves to "string".  In both, neither dictionary of
    the block has an entry named "hasOwnProperty". *)
Theorem dotted_examples_resolve (schema : ProviderSchema) (key : string)
    (entry : Provider) :
  getFullProviderName schema "aws" = Some key ->
  key <> "" ->
  provider_schemas schema ≫= (.!! key) = Some entry ->
  (forall (instance : Schema) (b : Block) (tags : Attribute),
      resource_schemas entry !! "aws_instance" = Some instance ->
      schema_block instance = Some b ->
      entryOf (attributes b) "tags" = Some tags ->
      type tags = TCollection KMap (TPrimitive "string") ->
      entryOf (attributes b) "hasOwnProperty" = None ->
      entryOf (block_types b) "tags" = None ->
      entryOf (block_types b) "hasOwnProperty" = None ->
      getTypeAtPath getFullProviderName schema "aws.instance.tags"
      = Return (Defined (RAttributeType (TCollection KMap (TPrimitive "string")))))
  /\ (forall (ami : Schema) (b : Block) (id : Attribute),
        data_source_schemas entry !! "aws_ami" = Some ami ->
        schema_block ami = Some b ->
        entryOf (attributes b) "id" = Some id ->
        type id = TPrimitive "string" ->
        entryOf (attributes b) "hasOwnProperty" = None ->
        entryOf (block_types b) "id" = None ->
        entryOf (block_types b) "hasOwnProperty" = None ->
        getTypeAtPath getFullProviderName schema "data.aws.ami.id"
        = Return (Defined (RAttributeType (TPrimitive "string")))).
Proof.
  intros Hname Hkey Hentry. split.
  - intros instance b tags Hinstance Hb Htags Htype Hsafe Hnot Hsafe'.
    rewrite <- Htype.
    apply (getTypeAtPath_attribute schema _ "tags" (CSchema instance) b);
      try assumption.
    apply (getResourceAtPath_named schema _ false "aws" "instance" "tags" key []
             entry); try assumption; try reflexivity; [discriminate|].
    unfold namedBy. change (endsWith "instance" "Provider") with false.
    cbn [schemasOf]. change ("aws" +:+ "_" +:+ "instance") with "aws_instance".
    now rewrite (readProperty_own _ _ _ Hinstance).
  - intros ami b id Hami Hb Hid Htype Hsafe Hnot Hsafe'.
    rewrite <- Htype.
    apply (getTypeAtPath_attribute schema _ "id" (CSchema ami) b);
      try assumption.
    apply (getResourceAtPath_named schema _ true "aws" "ami" "id" key []
             entry); try assumption; try reflexivity; [discriminate|].
    unfold namedBy. change (endsWith "ami" "Provider") with false.
    cbn [schemasOf]. change ("aws" +:+ "_" +:+ "ami") with "aws_ami".
    now rewrite (readProperty_own _ _ _ Hami).
Qed.

(** ** Provider paths *)




(** ** Exceptions *)

(** C1. Two inputs on which the entry points raise a [TypeError] instead of
    returning an absent value.  For a path "data.<provider>" whose provider is
    in the schema, [getResourceAtPath] calls [endsWith] on an undefined
    [resourceName], and the four functions built on it raise with it.  For a
    path "<provider>.<name>Provider. ..." whose provider entry has no
    configuration block, [getAttributeTypeAtPath] reads [block] of an
    undefined [resource]. *)
Theorem entry_points_raise (schema : ProviderSchema) (path providerName key : string)
    (entry : Provider) :
  getFullProviderName schema providerName = Some key ->
  key <> "" ->
  provider_schemas schema ≫= (.!! key) = Some entry ->
  (split path = ["data"; providerName] ->
   getResourceAtPath getFullProviderName schema path
   = Throw (TypeError "endsWith")
   /\ getBlockTypeAtPath getFullProviderName schema path
      = Throw (TypeError "endsWith")
   /\ getAttributeTypeAtPath getFullProviderName schema path
      = Throw (TypeError "endsWith")
   /\ getTypeAtPath getFullProviderName schema path
      = Throw (TypeError "endsWith")
   /\ getDesiredType getFullProviderName (mkScope schema) path
      = Throw (TypeError "endsWith"))
  /\ (forall (resourceName : string) (rest : list string),
        split path = providerName :: resourceName :: rest ->
        providerName <> "data" ->
        endsWith resourceName "Provider" = true ->
        provider entry = None ->
        getAttributeTypeAtPath getFullProviderName schema path
        = Throw (TypeError "block")).
Proof.
  intros Hname Hkey Hentry. split.
  - intros Hsplit.
    pose proof (getResourceAtPath_data_pair schema path providerName key entry
                  Hsplit Hname Hkey Hentry) as Hraise.
    split; [exact Hraise | now apply raise_propagates].
  - intros resourceName rest Hsplit Hdata Hsuffix Hbare.
    apply (getAttributeTypeAtPath_without_resource schema path rest).
    change None with (CSchema <$> (None : option Schema)). rewrite <- Hbare.
    now apply (getResourceAtPath_provider schema path providerName resourceName
                 key rest entry).
Qed.

(** C7. On a path "data.<provider>" whose provider is in the schema
    [getDesiredType] returns no value, the dynamic sentinel included: the
    exception raised by [getTypeAtPath] passes through it. *)
Theorem getDesiredType_raises_on_data_pair (scope : Scope)
    (path providerName key : string) (entry : Provider) :
  split path = ["data"; providerName] ->
  getFullProviderName (providerSchema scope) providerName = Some key ->
  key <> "" ->
  provider_schemas (providerSchema scope) ≫= (.!! key) = Some entry ->
  getDesiredType getFullProviderName scope path = Throw (TypeError "endsWith")
  /\ forall t : AttributeType,
       getDesiredType getFullProviderName scope path <> Return t.
Proof.
  intros Hsplit Hname Hkey Hentry.
  pose proof (getResourceAtPath_data_pair _ path providerName key entry
                Hsplit Hname Hkey Hentry) as Hraise.
  apply raise_propagates in Hraise as (_ & _ & _ & Hdesired).
  destruct scope as [schema]. cbn [providerSchema] in Hdesired.
  rewrite Hdesired. split; [reflexivity|discriminate].
Qed.

(** C8. Two inputs on which [getAttributeTypeAtPath] raises a [TypeError]
    where a number of segments other than one calls for [null].  For a path
    "data.<provider>" no segment is left and [getResourceAtPath] raises.  For
    a path "<provider>.<name>Provider. ..." whose provider entry has no
    configuration block, [resource.block.attributes] is read before the
    segments are counted, and the read fails with any number of segments
    left. *)
Theorem getAttributeTypeAtPath_raises_instead_of_absent
    (schema : ProviderSchema) (path providerName key : string)
    (entry : Provider) :
  getFullProviderName schema providerName = Some key ->
  key <> "" ->
  provider_schemas schema ≫= (.!! key) = Some entry ->
  (split path = ["data"; providerName] ->
   getAttributeTypeAtPath getFullProviderName schema path
   = Throw (TypeError "endsWith"))
  /\ (forall (resourceName : string) (rest : list string),
        split path = providerName :: resourceName :: rest ->
        providerName <> "data" ->
        endsWith resourceName "Provider" = true ->
        provider entry = None ->
        length rest <> 1 ->
        getResourceAtPath getFullProviderName schema path
        = Return (Some (mkLocated None rest))
        /\ getAttributeTypeAtPath getFullProviderName schema path
           = Throw (TypeError "block")).
Proof.
  intros Hname Hkey Hentry. split.
  - intros Hsplit.
    pose proof (getResourceAtPath_data_pair schema path providerName key entry
                  Hsplit Hname Hkey Hentry) as Hraise.
    now apply raise_propagates in Hraise as (_ & Hattribute & _).
  - intros resourceName rest Hsplit Hdata Hsuffix Hbare _.
    assert (getResourceAtPath getFullProviderName schema path
            = Return (Some (mkLocated None rest))) as Hlocated.
    { change None with (CSchema <$> (None : option Schema)). rewrite <- Hbare.
      now apply (getResourceAtPath_provider schema path providerName
                   resourceName key rest entry). }
    split; [exact Hlocated|].
    now apply (getAttributeTypeAtPath_without_resource schema path rest).
Qed.

End Properties.

(** ** The statements on the example schemas *)

Import Fixtures.

(** The path "aws" has one segment. *)
Lemma short_path_resolves_to_absent_witness :
  length (split "aws") < 2
  /\ getResourceAtPath registryName awsSchema "aws" = Return None
  /\ getBlockTypeAtPath registryName awsSchema "aws" = Return None
  /\ getAttributeTypeAtPath registryName awsSchema "aws" = Return Null
  /\ getTypeAtPath registryName awsSchema "aws" = Return Null
  /\ getDesiredType registryName (mkScope awsSchema) "aws" = Return dynamic.
Proof.
  assert (length (split "aws") < 2) as Hshort by (vm_compute; lia).
  split; [exact Hshort|].
  exact (short_path_resolves_to_absent registryName awsSchema
           (mkScope awsSchema) "aws" Hshort).
Defined.

(** The segment "constructor" names no member of an object with the one
    member "name", and [resolveAttribute] returns the function [Object]. *)
Lemma resolveAttribute_returns_inherited_member :
  ({[ "name" := stringT ]} : gmap string AttributeType) !! "constructor" = None
  /\ resolveAttribute
       (plain (TCollection KList (TObject {[ "name" := stringT ]})))
       ["constructor"]
     = Defined (Member (Method "constructor"))
  /\ resolveAttribute
       (plain (TCollection KList (TObject {[ "name" := stringT ]})))
       ["constructor"]
     <> Undefined.
Proof.
  split; [vm_compute; reflexivity|].
  split; [vm_compute; reflexivity | vm_compute; discriminate].
Qed.

(** The block of [colliding] declares "tags" as a nested block and as an
    attribute, and "aws.instance.tags" resolves to the nested block, not to
    the type of the attribute; the block of [clashing] declares a nested
    block "hasOwnProperty" as well, and the same path raises. *)
Lemma nested_block_shadows_attribute_witness :
  getTypeAtPath registryName collidingSchema "aws.instance.tags"
  = Return (Defined (RContainer (CBlockType tagsBlock)))
  /\ getTypeAtPath registryName clashingSchema "aws.instance.tags"
     = Throw (NotAFunction "hasOwnProperty").
Proof.
  split.
  - pose proof (proj2 (nested_block_shadows_attribute registryName
                         collidingSchema "aws.instance.tags"
                         (CSchema colliding) (CSchema colliding) [] "tags"
                         [] _ _ _ eq_refl eq_refl eq_refl eq_refl eq_refl
                         (ex_intro _ tagsBlock eq_refl)
                         (ex_intro _ _ eq_refl)))
      as (next & Hnext & Hwalk & _).
    injection Hnext as <-. exact Hwalk.
  - exact (proj2 (nested_block_shadows_attribute registryName
                    clashingSchema "aws.instance.tags"
                    (CSchema clashing) (CSchema clashing) [] "tags"
                    [] _ _ _ eq_refl eq_refl eq_refl eq_refl eq_refl
                    (ex_intro _ tagsBlock eq_refl)
                    (ex_intro _ _ eq_refl))).
Defined.

(** "aws.instance.ingress.constructor": "constructor" is no member of the
    objects of "ingress", and the value returned is the function [Object]. *)
Lemma getTypeAtPath_never_resource_schema_witness :
  getTypeAtPath registryName awsSchema "aws.instance.ingress.constructor"
  = Return (Defined (RMember (Method "constructor")))
  /\ branchOf (Defined (RMember (Method "constructor"))) <> SchemaShaped.
Proof.
  assert (getTypeAtPath registryName awsSchema
            "aws.instance.ingress.constructor"
          = Return (Defined (RMember (Method "constructor"))))
    as Hreturn by (vm_compute; reflexivity).
  split; [exact Hreturn|].
  exact (proj1 (getTypeAtPath_never_resource_schema registryName awsSchema
                  "aws.instance.ingress.constructor" _ Hreturn)).
Defined.


(** The examples on [awsSchema], written with dots. *)
Lemma dotted_examples_resolve_witness :
  getTypeAtPath registryName awsSchema "aws.instance.tags"
  = Return (Defined (RAttributeType (TCollection KMap (TPrimitive "string"))))
  /\ getTypeAtPath registryName awsSchema "data.aws.ami.id"
     = Return (Defined (RAttributeType (TPrimitive "string"))).
Proof.
  assert (awsKey <> "") as Hkey by discriminate.
  pose proof (dotted_examples_resolve registryName awsSchema awsKey awsEntry
                eq_refl Hkey eq_refl) as [Htags Hid].
  split.
  - exact (Htags aws_instance _ (plain (TCollection KMap stringT))
             eq_refl eq_refl eq_refl eq_refl eq_refl eq_refl eq_refl).
  - exact (Hid aws_ami _ (plain stringT)
             eq_refl eq_refl eq_refl eq_refl eq_refl eq_refl eq_refl).
Defined.

(** C2, the examples as the specification writes them: [awsSchema] defines
    the resource "aws_instance" with "tags" and the data source "aws_ami" with
    "id", the resolver maps every short name to the key of the provider, and
    both paths resolve to [null]. *)
Lemma underscore_examples_do_not_resolve :
  (getTypeAtPath alwaysAws awsSchema "aws_instance.tags" = Return Null
   /\ getTypeAtPath alwaysAws awsSchema "aws_instance.tags"
      <> Return (Defined (RAttributeType (TCollection KMap (TPrimitive "string")))))
  /\ (getTypeAtPath alwaysAws awsSchema "data.aws_ami.id" = Return Null
      /\ getTypeAtPath alwaysAws awsSchema "data.aws_ami.id"
         <> Return (Defined (RAttributeType (TPrimitive "string")))).
Proof.
  assert (getTypeAtPath alwaysAws awsSchema "aws_instance.tags" = Return Null)
    as Htags by (vm_compute; reflexivity).
  assert (getTypeAtPath alwaysAws awsSchema "data.aws_ami.id" = Return Null)
    as Hid by (vm_compute; reflexivity).
  rewrite Htags, Hid. repeat split; discriminate.
Qed.



(** "data.aws" on [awsSchema], and "aws.awsProvider.region" on [bareSchema],
    whose provider has no configuration block. *)
Lemma entry_points_raise_witness :
  (getResourceAtPath registryName awsSchema "data.aws"
   = Throw (TypeError "endsWith")
   /\ getBlockTypeAtPath registryName awsSchema "data.aws"
      = Throw (TypeError "endsWith")
   /\ getAttributeTypeAtPath registryName awsSchema "data.aws"
      = Throw (TypeError "endsWith")
   /\ getTypeAtPath registryName awsSchema "data.aws"
      = Throw (TypeError "endsWith")
   /\ getDesiredType registryName (mkScope awsSchema) "data.aws"
      = Throw (TypeError "endsWith"))
  /\ getAttributeTypeAtPath registryName bareSchema "aws.awsProvider.region"
     = Throw (TypeError "block").
Proof.
  split.
  - apply (entry_points_raise registryName awsSchema "data.aws" "aws" awsKey
             awsEntry);
      first [reflexivity | discriminate].
  - eapply (proj2 (entry_points_raise registryName bareSchema
                     "aws.awsProvider.region" "aws" awsKey bareEntry
                     eq_refl _ eq_refl));
      first [reflexivity | discriminate].
    Unshelve. discriminate.
Defined.

(** "data.aws" with the scope of [awsSchema]. *)
Lemma getDesiredType_raises_on_data_pair_witness :
  split "data.aws" = ["data"; "aws"]
  /\ getDesiredType registryName (mkScope awsSchema) "data.aws"
     = Throw (TypeError "endsWith").
Proof.
  split; [reflexivity|].
  apply (getDesiredType_raises_on_data_pair registryName (mkScope awsSchema)
           "data.aws" "aws" awsKey awsEntry);
    first [reflexivity | discriminate].
Defined.

(** "data.aws" on [awsSchema], and "aws.awsProvider" on [bareSchema]: no
    segment is left and the lookup raises. *)
Lemma getAttributeTypeAtPath_raises_instead_of_absent_witness :
  getAttributeTypeAtPath registryName awsSchema "data.aws"
  = Throw (TypeError "endsWith")
  /\ provider bareEntry = None
  /\ getResourceAtPath registryName bareSchema "aws.awsProvider"
     = Return (Some (mkLocated None []))
  /\ getAttributeTypeAtPath registryName bareSchema "aws.awsProvider"
     = Throw (TypeError "block").
Proof.
  split.
  - apply (getAttributeTypeAtPath_raises_instead_of_absent registryName
             awsSchema "data.aws" "aws" awsKey awsEntry);
      first [reflexivity | discriminate].
  - split; [reflexivity|].
    eapply (proj2 (getAttributeTypeAtPath_raises_instead_of_absent
                     registryName bareSchema "aws.awsProvider" "aws" awsKey
                     bareEntry eq_refl _ eq_refl));
      first [reflexivity | discriminate].
    Unshelve. discriminate.
Defined.

(** ** More on strings *)

Lemma mentions_append (c : ascii) (s t : string) :
  mentions c (s +:+ t) = mentions c s || mentions c t.
Proof.
  induction s as [|d s IH]; [reflexivity|].
  rewrite append_String. cbn [mentions]. now rewrite IH, orb_assoc.
Qed.

Lemma mentions_joinWith (c sep : ascii) (segs : list string) (seg : string) :
  mentions c (joinWith sep segs) = false -> In seg segs ->
  mentions c seg = false.
Proof.
  induction segs as [|first segs IH]; [easy|].
  destruct segs as [|second segs].
  - cbn. intros Hc [<-|[]]. exact Hc.
  - rewrite joinWith_cons by discriminate.
    rewrite mentions_append. cbn [mentions].
    intros Hc Hin. apply orb_false_iff in Hc as [Hfirst Hrest].
    apply orb_false_iff in Hrest as [_ Hrest].
    destruct Hin as [<-|Hin]; [exact Hfirst|now apply IH].
Qed.

(** A character that is not in the path is in none of its segments. *)
Lemma mentions_segment (c : ascii) (path seg : string) :
  mentions c path = false -> In seg (split path) -> mentions c seg = false.
Proof.
  intros Hpath. apply (mentions_joinWith c "."%char).
  unfold split. now rewrite joinWith_splitOn.
Qed.

Lemma replace_without_marker (s : string) :
  mentions "["%char s = false -> replace "[]" "" s = s.
Proof.
  induction s as [|c s IH]; [reflexivity|].
  cbn [mentions]. intros Hc. apply orb_false_iff in Hc as [Hc Hs].
  cbn [replace String.prefix].
  destruct (ascii_dec "["%char c) as [<-|_]; [discriminate Hc|].
  now rewrite IH.
Qed.

Lemma endsWith_marker_mentions (s : string) :
  mentions "["%char s = false -> endsWith s "[]" = false.
Proof.
  induction s as [|c s IH]; [reflexivity|].
  cbn [mentions]. intros Hc. apply orb_false_iff in Hc as [Hc Hs].
  cbn [endsWith]. rewrite (IH Hs).
  destruct (String.eqb_spec (String c s) "[]") as [Heq|_]; [|reflexivity].
  injection Heq as -> _. discriminate Hc.
Qed.

(** Splitting "<path>.<more>" gives the segments of the one, then those of
    the other. *)
Lemma split_append (path more : string) :
  split (path +:+ String "."%char more) = split path ++ split more.
Proof.
  unfold split. induction path as [|c path IH].
  - reflexivity.
  - rewrite append_String. cbn [splitOn].
    destruct (Ascii.eqb c "."%char).
    + now rewrite IH.
    + rewrite IH.
      pose proof (splitOn_not_nil "."%char path) as Hne.
      now destruct (splitOn "."%char path).
Qed.

(** ** What is located, and what is not *)

Section Coverage.

Variable getFullProviderName : ProviderSchema -> string -> option string.

(** X1. What [getResourceAtPath] locates, and nothing else: it returns a
    value exactly when the path is "<provider>.<name>" with the segments
    handed on behind it, "data" ahead of it for a data source; the resolver
    gives for the provider a key that is not empty; and the read of that key
    in [provider_schemas] finds a value.  When the value is an entry, what is
    handed on is the configuration block of the provider if the name ends
    with "Provider", otherwise what the read of "<provider>_<name>" finds in
    its resources, or in its data sources for a "data" path, with at least
    one segment behind it.  When the key is no entry but a name of
    [Object.prototype], the name ends with "Provider" and no resource is
    handed on. *)
Theorem getResourceAtPath_spec (schema : ProviderSchema) (path : string)
    (located : Located) :
  getResourceAtPath getFullProviderName schema path = Return (Some located)
  <-> exists (isDataSource : bool) (providerName resourceName key : string)
             (providers : gmap string Provider) (found : Read Provider),
        split path
        = dataMarker isDataSource
          ++ providerName :: resourceName :: parts located
        /\ (isDataSource = false -> providerName <> "data")
        /\ getFullProviderName schema providerName = Some key
        /\ key <> ""
        /\ provider_schemas schema = Some providers
        /\ readProperty providers key = Some found
        /\ match found with
           | Entry entry =>
               resource located
               = namedBy isDataSource entry providerName resourceName
               /\ (endsWith resourceName "Provider" = false ->
                   parts located <> [] /\ is_Some (resource located))
           | Member _ =>
               endsWith resourceName "Provider" = true
               /\ resource located = None
           end.
Proof.
  split.
  - unfold getResourceAtPath.
    destruct (split path) as [|first [|second others]]; try discriminate.
    destruct (String.eqb_spec first "data") as [->|Hfirst].
    + destruct others as [|third others]; cbn [shift propertyKey];
        destruct (truthyName (getFullProviderName schema second)) as [key|]
          eqn:Hname; try discriminate;
        apply truthyName_inv in Hname as [Hname Hkey];
        destruct (provider_schemas schema) as [providers|] eqn:Hproviders;
        try discriminate; cbn [mbind option_bind];
        destruct (readProperty providers key) as [found|] eqn:Hread;
        try discriminate; cbn [reading]; rewrite ?bind_Return, ?bind_Throw;
        try discriminate.
      destruct found as [entry|member];
        destruct (endsWith third "Provider") eqn:Hsuffix; try discriminate.
      * intros [= <-]. exists true, second, third, key, providers, (Entry entry).
        unfold namedBy. rewrite Hsuffix. cbn.
        repeat split; auto; discriminate.
      * destruct (readProperty (data_source_schemas entry) _) as [read|]
          eqn:Hfound; [|discriminate].
        destruct others as [|fourth others]; [discriminate|].
        intros [= <-]. exists true, second, third, key, providers, (Entry entry).
        unfold namedBy, schemasOf. rewrite Hsuffix, Hfound. cbn.
        repeat split; eauto; discriminate.
      * intros [= <-]. exists true, second, third, key, providers, (Member member).
        cbn. repeat split; auto; discriminate.
    + cbn [shift propertyKey].
      destruct (truthyName (getFullProviderName schema first)) as [key|]
        eqn:Hname; [|discriminate].
      apply truthyName_inv in Hname as [Hname Hkey].
      destruct (provider_schemas schema) as [providers|] eqn:Hproviders;
        [|discriminate].
      cbn [mbind option_bind].
      destruct (readProperty providers key) as [found|] eqn:Hread;
        [|discriminate].
      cbn [reading]. rewrite bind_Return.
      destruct found as [entry|member];
        destruct (endsWith second "Provider") eqn:Hsuffix; try discriminate.
      * intros [= <-]. exists false, first, second, key, providers, (Entry entry).
        unfold namedBy. rewrite Hsuffix. cbn.
        repeat split; auto; discriminate.
      * destruct (readProperty (resource_schemas entry) _) as [read|]
          eqn:Hfound; [|discriminate].
        destruct others as [|third others]; [discriminate|].
        intros [= <-]. exists false, first, second, key, providers, (Entry entry).
        unfold namedBy, schemasOf. rewrite Hsuffix, Hfound. cbn.
        repeat split; eauto; discriminate.
      * intros [= <-]. exists false, first, second, key, providers, (Member member).
        cbn. repeat split; auto.
  - intros (isDataSource & providerName & resourceName & key & providers
            & found & Hsplit & Hplain & Hname & Hkey & Hproviders & Hread
            & Hcase).
    destruct located as [handed rest]. cbn [resource parts] in *.
    unfold getResourceAtPath. rewrite Hsplit.
    assert (String.eqb (hd "" (dataMarker isDataSource ++ [providerName]))
              "data" = isDataSource) as Hmarker.
    { destruct isDataSource; [reflexivity|].
      now apply String.eqb_neq, Hplain. }
    unfold namedBy in Hcase.
    destruct isDataSource; cbn [dataMarker app hd schemasOf] in *;
      rewrite Hmarker; cbv beta iota zeta; cbn [shift propertyKey];
      rewrite Hname, (truthyName_Some _ Hkey), Hproviders;
      cbn [mbind option_bind]; rewrite Hread;
      cbn [reading]; rewrite bind_Return;
      (destruct found as [entry|member];
       [ destruct Hcase as [Hhanded Hmore];
         destruct (endsWith resourceName "Provider");
         [ now subst handed
         | destruct (Hmore eq_refl) as [Hrest [known Hknown]];
           destruct (readProperty (_ entry) _) as [read|]; cbn in Hhanded;
           [|congruence]; subst handed;
           destruct rest; [congruence|reflexivity] ]
       | destruct Hcase as [-> ->]; reflexivity ]).
Qed.

(** Nothing located: every entry point reports an absent value. *)
Lemma not_located_is_absent (schema : ProviderSchema) (path : string) :
  getResourceAtPath getFullProviderName schema path = Return None ->
  getBlockTypeAtPath getFullProviderName schema path = Return None
  /\ getAttributeTypeAtPath getFullProviderName schema path = Return Null
  /\ getTypeAtPath getFullProviderName schema path = Return Null
  /\ getDesiredType getFullProviderName (mkScope schema) path = Return dynamic.
Proof.
  intros H.
  unfold getBlockTypeAtPath, getAttributeTypeAtPath, getDesiredType, getTypeAtPath.
  cbn [providerSchema]. rewrite H. repeat split; reflexivity.
Qed.

(** X2. A provider that cannot be found gives an absent value at every entry
    point and no exception, "data.<provider>" included: the resolver returns
    nothing or the empty string for the provider segment, the schema has no
    [provider_schemas], or the read of the key finds nothing, neither an
    entry nor a member of [Object.prototype]. *)
Theorem unknown_provider_is_absent (schema : ProviderSchema) (path : string)
    (isDataSource : bool) (providerName : string) (others : list string) :
  split path = dataMarker isDataSource ++ providerName :: others ->
  (isDataSource = false -> providerName <> "data" /\ others <> []) ->
  (truthyName (getFullProviderName schema providerName)
     ≫= fun key => provider_schemas schema
     ≫= fun providers => readProperty providers key) = None ->
  getResourceAtPath getFullProviderName schema path = Return None
  /\ getBlockTypeAtPath getFullProviderName schema path = Return None
  /\ getAttributeTypeAtPath getFullProviderName schema path = Return Null
  /\ getTypeAtPath getFullProviderName schema path = Return Null
  /\ getDesiredType getFullProviderName (mkScope schema) path = Return dynamic.
Proof.
  intros Hsplit Hplain Hunknown.
  assert (getResourceAtPath getFullProviderName schema path = Return None)
    as Hnone.
  { unfold getResourceAtPath. rewrite Hsplit.
    destruct isDataSource; cbn [dataMarker app].
    - change (String.eqb "data" "data") with true. cbv beta iota zeta.
      destruct (shift others) as [resourceName rest].
      destruct (truthyName _) as [key|]; [|reflexivity].
      cbn in Hunknown. now rewrite Hunknown.
    - destruct (Hplain eq_refl) as [Hdata Hothers].
      destruct others as [|second others]; [congruence|].
      apply String.eqb_neq in Hdata. rewrite Hdata. cbv beta iota zeta.
      destruct (shift (second :: others)) as [resourceName rest].
      destruct (truthyName _) as [key|]; [|reflexivity].
      cbn in Hunknown. now rewrite Hunknown. }
  split; [exact Hnone | now apply not_located_is_absent].
Qed.

(** X3. For a provider that is an entry of the schema and a name that does not
    end with "Provider", every entry point gives an absent value when the
    read of "<provider>_<name>" finds nothing, neither an entry nor a member
    of [Object.prototype], whatever segments follow; and also when no segment
    follows the name.  Resources and data sources are looked up apart: a
    "data" path reads [data_source_schemas] only, any other path
    [resource_schemas] only. *)
Theorem unknown_resource_is_absent (schema : ProviderSchema) (path : string)
    (isDataSource : bool) (providerName resourceName key : string)
    (rest : list string) (entry : Provider) :
  split path = dataMarker isDataSource ++ providerName :: resourceName :: rest ->
  (isDataSource = false -> providerName <> "data") ->
  getFullProviderName schema providerName = Some key ->
  key <> "" ->
  provider_schemas schema ≫= (.!! key) = Some entry ->
  endsWith resourceName "Provider" = false ->
  readProperty (schemasOf isDataSource entry)
    (providerName +:+ "_" +:+ resourceName) = None
  \/ rest = [] ->
  getResourceAtPath getFullProviderName schema path = Return None
  /\ getBlockTypeAtPath getFullProviderName schema path = Return None
  /\ getAttributeTypeAtPath getFullProviderName schema path = Return Null
  /\ getTypeAtPath getFullProviderName schema path = Return Null
  /\ getDesiredType getFullProviderName (mkScope schema) path = Return dynamic.
Proof.
  intros Hsplit Hplain Hname Hkey Hentry Hsuffix Hmissing.
  apply provider_entry_read in Hentry.
  assert (getResourceAtPath getFullProviderName schema path = Return None)
    as Hnone.
  { unfold getResourceAtPath. rewrite Hsplit.
    destruct isDataSource; cbn [dataMarker app schemasOf] in *.
    - change (String.eqb "data" "data") with true.
      cbv beta iota zeta. cbn [shift propertyKey].
      rewrite Hname, (truthyName_Some _ Hkey), Hentry.
      cbn [reading]. rewrite bind_Return, Hsuffix.
      destruct Hmissing as [-> | ->]; [reflexivity|].
      now destruct (readProperty _ _).
    - specialize (Hplain eq_refl). apply String.eqb_neq in Hplain.
      rewrite Hplain. cbv beta iota zeta. cbn [shift propertyKey].
      rewrite Hname, (truthyName_Some _ Hkey), Hentry.
      cbn [reading]. rewrite bind_Return, Hsuffix.
      destruct Hmissing as [-> | ->]; [reflexivity|].
      now destruct (readProperty _ _). }
  split; [exact Hnone | now apply not_located_is_absent].
Qed.

(** ** Unknown segments *)

(** X4. A first segment after the resource that names neither a nested block
    nor an attribute of the resource, in a block without an entry named
    "hasOwnProperty": [getBlockTypeAtPath] and [getTypeAtPath], which guard
    their reads, return [null] whatever follows, and [getDesiredType] the
    dynamic sentinel.  [getAttributeTypeAtPath] reads without a guard: it
    returns [null] when more segments follow; when the segment is the only
    one it returns [undefined], or the member of [Object.prototype] that the
    segment names. *)
Theorem unknown_segment_is_absent (schema : ProviderSchema) (path seg : string)
    (rest : list string) (found : Container) (b : Block)
    (declaredAttributes : gmap string Attribute) :
  getResourceAtPath getFullProviderName schema path
  = Return (Some (mkLocated (Some found) (seg :: rest))) ->
  block found = Some b ->
  attributes b = Some declaredAttributes ->
  mentions "["%char seg = false ->
  entryOf (block_types b) seg = None ->
  entryOf (block_types b) "hasOwnProperty" = None ->
  declaredAttributes !! seg = None ->
  declaredAttributes !! "hasOwnProperty" = None ->
  getBlockTypeAtPath getFullProviderName schema path = Return None
  /\ getTypeAtPath getFullProviderName schema path = Return Null
  /\ getDesiredType getFullProviderName (mkScope schema) path = Return dynamic
  /\ getAttributeTypeAtPath getFullProviderName schema path
     = Return match rest with
              | [] => match inheritedMember seg with
                      | Some inherited => Defined (Member inherited)
                      | None => Undefined
                      end
              | _ :: _ => Null
              end.
Proof.
  intros Hlocated Hblock Hattributes Hseg Hnested Hsafe Hattribute Hsafe'.
  assert (blockTypeNamed (Some found) (Some seg) = Return None) as Hnone.
  { rewrite blockTypeNamed_inherited;
      rewrite (blockTypesOf_block found b Hblock); [|exact Hsafe].
    cbn [propertyKey]. now rewrite Hnested. }
  assert (attributeNamed (Some found) (Some seg) = Return None) as Hnone'.
  { rewrite attributeNamed_inherited;
      rewrite (attributesOf_block found b Hblock), Hattributes;
      [|exact Hsafe'].
    cbn. now rewrite Hattribute. }
  assert (getTypeAtPath getFullProviderName schema path = Return Null) as Htype.
  { rewrite (getTypeAtPath_located _ _ _ _ Hlocated).
    cbn [resource parts shift fst snd].
    now rewrite (typeLoop_attribute _ _ _ Hnone), Hnone'. }
  repeat split.
  - rewrite (getBlockTypeAtPath_located _ _ _ _ Hlocated).
    cbn [resource parts shift fst snd].
    now apply blockTypeLoop_none.
  - exact Htype.
  - unfold getDesiredType. cbn [providerSchema]. now rewrite Htype.
  - unfold getAttributeTypeAtPath.
    rewrite Hlocated, bind_Return. cbn [resource parts reading].
    rewrite bind_Return, Hblock. cbn [reading]. rewrite bind_Return.
    destruct rest as [|next rest]; [|reflexivity].
    rewrite Hattributes. cbn [reading].
    rewrite bind_Return, (replace_without_marker seg Hseg).
    rewrite (readProperty_missing _ _ Hattribute).
    now destruct (inheritedMember seg).
Qed.

(** ** The walkers compared *)

Lemma loops_agree_on_blocks (rest : list string) :
  forall (currentSchema : option Container) (part : option string)
         (c : Container),
    blockTypeLoop currentSchema part rest = Return (Some c)
    <-> typeLoop currentSchema part rest = Return (Defined (RContainer c)).
Proof.
  induction rest as [|next rest IH]; intros currentSchema part c;
    destruct (blockTypeNamed currentSchema part) as [[found|]|e] eqn:Hnext;
    rewrite ?(blockTypeLoop_block _ _ _ _ Hnext),
      ?(blockTypeLoop_none _ _ _ Hnext),
      ?(blockTypeLoop_raise _ _ _ _ Hnext),
      ?(typeLoop_block _ _ _ _ Hnext), ?(typeLoop_attribute _ _ _ Hnext),
      ?(typeLoop_raise _ _ _ _ Hnext);
    try (split; discriminate);
    try (split; [discriminate|];
         destruct (attributeNamed currentSchema part) as [[attribute|]|e];
         rewrite ?bind_Return, ?bind_Throw; try discriminate;
         intros [= H]; now apply asTypeResult_not_container in H).
  - split; intros [= <-]; reflexivity.
  - apply IH.
Qed.

(** X5. [getBlockTypeAtPath] and [getTypeAtPath] agree on blocks: the one
    returns a block exactly when the other returns that block.  So a path on
    which [getBlockTypeAtPath] finds a block never resolves to an attribute
    type, and [getTypeAtPath] reports no block that [getBlockTypeAtPath]
    misses. *)
Theorem block_walkers_agree (schema : ProviderSchema) (path : string)
    (c : Container) :
  getBlockTypeAtPath getFullProviderName schema path = Return (Some c)
  <-> getTypeAtPath getFullProviderName schema path
      = Return (Defined (RContainer c)).
Proof.
  unfold getBlockTypeAtPath, getTypeAtPath.
  destruct (getResourceAtPath getFullProviderName schema path)
    as [[located|]|e]; rewrite ?bind_Return, ?bind_Throw;
    [|split; discriminate..].
  destruct (shift (parts located)) as [part rest].
  apply loops_agree_on_blocks.
Qed.

(** X6. On a path without "[" whose single segment after the resource names no
    nested block, in a block without an entry named "hasOwnProperty",
    [getAttributeTypeAtPath] and [getTypeAtPath] read the same entry of
    [attributes]: the one returns the attribute as declared, the other its
    type.  For a name that is not declared they differ: [getTypeAtPath],
    which guards the read, returns [null]; [getAttributeTypeAtPath] returns
    [undefined], or the member of [Object.prototype] of that name. *)
Theorem attribute_lookups_agree (schema : ProviderSchema) (path seg : string)
    (found : Container) (b : Block)
    (declaredAttributes : gmap string Attribute) :
  getResourceAtPath getFullProviderName schema path
  = Return (Some (mkLocated (Some found) [seg])) ->
  block found = Some b ->
  attributes b = Some declaredAttributes ->
  mentions "["%char path = false ->
  entryOf (block_types b) seg = None ->
  entryOf (block_types b) "hasOwnProperty" = None ->
  declaredAttributes !! "hasOwnProperty" = None ->
  getAttributeTypeAtPath getFullProviderName schema path
  = Return match declaredAttributes !! seg with
           | Some attribute =>
               Defined (Entry (mkAttribute (SType (type attribute))
                                 (description attribute) (required attribute)
                                 (optional attribute) (computed attribute)))
           | None => match inheritedMember seg with
                     | Some inherited => Defined (Member inherited)
                     | None => Undefined
                     end
           end
  /\ getTypeAtPath getFullProviderName schema path
     = Return match declaredAttributes !! seg with
              | Some attribute => Defined (RAttributeType (type attribute))
              | None => Null
              end.
Proof.
  intros Hlocated Hblock Hattributes Hpath Hnested Hsafe Hsafe'.
  assert (mentions "["%char seg = false) as Hseg.
  { apply (mentions_segment _ path); [exact Hpath|].
    destruct (getResourceAtPath_suffix _ _ _ _ Hlocated) as [before ->].
    apply in_or_app. right. now left. }
  split.
  - unfold getAttributeTypeAtPath.
    rewrite Hlocated, bind_Return. cbn [resource parts reading].
    rewrite bind_Return, Hblock. cbn [reading].
    rewrite bind_Return, Hattributes. cbn [reading].
    rewrite bind_Return, (replace_without_marker seg Hseg).
    rewrite (endsWith_marker_mentions path Hpath). unfold readProperty.
    destruct (declaredAttributes !! seg) as [attribute|].
    + now destruct (descriptor (type attribute)) as [[kind element]|].
    + now destruct (inheritedMember seg).
  - rewrite (getTypeAtPath_located _ _ _ _ Hlocated).
    cbn [resource parts shift fst snd].
    rewrite typeLoop_attribute.
    + rewrite attributeNamed_inherited;
        rewrite (attributesOf_block found b Hblock), Hattributes;
        [|exact Hsafe'].
      cbn. now destruct (declaredAttributes !! seg).
    + rewrite blockTypeNamed_inherited;
        rewrite (blockTypesOf_block found b Hblock); [|exact Hsafe].
      cbn [propertyKey]. now rewrite Hnested.
Qed.

(** ** Resolution along a longer path *)

Lemma resolveLoop_unfold (currentAtt : option (Read AttributeType))
    (part : string) (rest : list string) :
  resolveLoop currentAtt part rest
  = match currentAtt ≫= indexable with
    | None => Null
    | Some members =>
        match rest with
        | [] => orUndefined (readProperty members part)
        | part' :: rest' => resolveLoop (readProperty members part) part' rest'
        end
    end.
Proof.
  destruct currentAtt as [[t|member]|]; [|now destruct rest..]. cbn.
  destruct (listOrSetOfObject t) as [members|] eqn:Hshape.
  - apply listOrSetOfObject_Some in Hshape as (kind & -> & Hkind).
    now apply resolveLoop_members.
  - now apply resolveLoop_not_indexable.
Qed.

Lemma resolveLoop_app (front : list string) :
  forall (currentAtt : option (Read AttributeType)) (part next : string)
         (back : list string),
    resolveLoop currentAtt part (front ++ next :: back)
    = match resolveLoop currentAtt part front with
      | Defined found => resolveLoop (Some found) next back
      | Null | Undefined => Null
      end.
Proof.
  induction front as [|part' front IH]; intros currentAtt part next back.
  - cbn [app]. rewrite !(resolveLoop_unfold currentAtt).
    destruct (currentAtt ≫= indexable) as [members|]; [|reflexivity].
    destruct (readProperty members part) as [found|]; cbn; [reflexivity|].
    apply resolveLoop_undefined.
  - change ((part' :: front) ++ next :: back)
      with (part' :: (front ++ next :: back)).
    rewrite !(resolveLoop_unfold currentAtt).
    destruct (currentAtt ≫= indexable) as [members|]; [|reflexivity].
    apply IH.
Qed.

(** X7. [resolveAttribute] along segments put one after the other: when the
    first segments resolve to a type, the whole resolves as the remaining
    segments do from that type; when they resolve to [null], to [undefined]
    or to a member of [Object.prototype] and segments remain, the whole
    resolves to [null].  Only the type of the attribute is read. *)
Theorem resolveAttribute_app (att : Attribute) (front back : list string) :
  resolveAttribute att (front ++ back)
  = match resolveAttribute att front with
    | Defined (Entry t) => resolveAttribute (withType att t) back
    | Defined (Member inherited) =>
        match back with
        | [] => Defined (Member inherited)
        | _ :: _ => Null
        end
    | Null => Null
    | Undefined => match back with
                   | [] => Undefined
                   | _ :: _ => Null
                   end
    end.
Proof.
  destruct back as [|next back].
  - rewrite app_nil_r. now destruct (resolveAttribute att front) as [[t|m]| |].
  - destruct front as [|part front]; [reflexivity|].
    change ((part :: front) ++ next :: back)
      with (part :: (front ++ next :: back)).
    cbn [resolveAttribute]. rewrite resolveLoop_app.
    destruct (resolveLoop (Some (Entry (type att))) part front) as [[t|m]| |];
      try reflexivity.
    apply resolveLoop_member.
Qed.

Lemma resolveLoop_undefined_inv (rest : list string) :
  forall (part : string) (t : AttributeType),
    resolveLoop (Some (Entry t)) part rest = Undefined ->
    exists (front : list string) (last : string) (kind : CollectionKind)
           (members : gmap string AttributeType),
      part :: rest = front ++ [last]
      /\ match front with
         | [] => Defined (Entry t)
         | first :: others => resolveLoop (Some (Entry t)) first others
         end = Defined (Entry (TCollection kind (TObject members)))
      /\ kind <> KMap
      /\ readProperty members last = None.
Proof.
  induction rest as [|part' rest IH]; intros part t;
    rewrite resolveLoop_unfold; cbn [mbind option_bind indexable];
    destruct (listOrSetOfObject t) as [members|] eqn:Hshape;
    try discriminate;
    apply listOrSetOfObject_Some in Hshape as (kind & -> & Hkind).
  - destruct (readProperty members part) as [found|] eqn:Hmember;
      [discriminate|].
    intros _. now exists [], part, kind, members.
  - destruct (readProperty members part) as [[t'|inherited]|] eqn:Hmember;
      [|now rewrite resolveLoop_member|now rewrite resolveLoop_undefined].
    intros Hrest.
    destruct (IH part' t' Hrest)
      as (front & last & kind' & members' & Hsplit & Hfront & Hkind' & Hlast).
    exists (part :: front), last, kind', members'.
    rewrite Hsplit. repeat split; try assumption.
    rewrite resolveLoop_members by assumption.
    rewrite Hmember. destruct front as [|second front]; exact Hfront.
Qed.

(** X8. [resolveAttribute] returns [undefined] in one case only: every
    segment but the last resolves, to a list or a set of an object, and the
    last segment is neither a member of that object nor a name of
    [Object.prototype].  Everything else that fails is [null]. *)
Theorem resolveAttribute_undefined (att : Attribute) (segments : list string) :
  resolveAttribute att segments = Undefined
  <-> exists (front : list string) (last : string) (kind : CollectionKind)
             (members : gmap string AttributeType),
        segments = front ++ [last]
        /\ resolveAttribute att front
           = Defined (Entry (TCollection kind (TObject members)))
        /\ kind <> KMap
        /\ members !! last = None
        /\ inheritedMember last = None.
Proof.
  split.
  - destruct segments as [|part rest]; [discriminate|].
    cbn [resolveAttribute]. intros Hloop.
    destruct (resolveLoop_undefined_inv _ _ _ Hloop)
      as (front & last & kind & members & Hsplit & Hfront & Hkind & Hlast).
    apply readProperty_None in Hlast as [Hlast Hinherited].
    exists front, last, kind, members. repeat split; assumption.
  - intros (front & last & kind & members & -> & Hfront & Hkind & Hlast
            & Hinherited).
    assert (readProperty members last = None) as Hread
      by now apply readProperty_None.
    destruct front as [|first others]; cbn [resolveAttribute app] in *.
    + injection Hfront as ->.
      rewrite resolveLoop_members by assumption. now rewrite Hread.
    + rewrite resolveLoop_app, Hfront.
      rewrite resolveLoop_members by assumption. now rewrite Hread.
Qed.

Lemma typeLoop_app (front : list string) :
  forall (currentSchema : option Container) (part : option string)
         (next : string) (back : list string),
    typeLoop currentSchema part (front ++ next :: back)
    = (outcome ← typeLoop currentSchema part front;
       match outcome with
       | Defined result => continueFrom result (next :: back)
       | Null | Undefined => Return Null
       end).
Proof.
  induction front as [|part' front IH]; intros currentSchema part next back;
    (destruct (blockTypeNamed currentSchema part) as [[found|]|e] eqn:Hnext;
     [ rewrite !(typeLoop_block _ _ _ _ Hnext)
     | rewrite !(typeLoop_attribute _ _ _ Hnext);
       destruct (attributeNamed currentSchema part) as [[attribute|]|e];
       rewrite ?bind_Return, ?bind_Throw; try reflexivity
     | now rewrite !(typeLoop_raise _ _ _ _ Hnext) ]).
  - reflexivity.
  - change ((part' :: front) ++ next :: back)
      with (part' :: (front ++ next :: back)).
    cbv iota. apply IH.
  - change ((part' :: front) ++ next :: back)
      with (part' :: (front ++ next :: back)).
    cbn [resolveAttribute]. rewrite resolveLoop_app.
    destruct (resolveLoop (Some (Entry (type attribute))) part' front)
      as [[t|inherited]| |]; try reflexivity.
    cbn. now rewrite resolveLoop_member.
Qed.

Lemma blockTypeLoop_app (front : list string) :
  forall (currentSchema : option Container) (part : option string)
         (next : string) (back : list string),
    blockTypeLoop currentSchema part (front ++ next :: back)
    = (outcome ← blockTypeLoop currentSchema part front;
       match outcome with
       | Some c => blockTypeLoop (Some c) (Some next) back
       | None => Return None
       end).
Proof.
  induction front as [|part' front IH]; intros currentSchema part next back;
    (destruct (blockTypeNamed currentSchema part) as [[found|]|e] eqn:Hnext;
     [ rewrite !(blockTypeLoop_block _ _ _ _ Hnext)
     | now rewrite !(blockTypeLoop_none _ _ _ Hnext)
     | now rewrite !(blockTypeLoop_raise _ _ _ _ Hnext) ]).
  - reflexivity.
  - change ((part' :: front) ++ next :: back)
      with (part' :: (front ++ next :: back)).
    cbv iota. apply IH.
Qed.

(** What is located for a path is located for "<path>.<more>", with the
    segments of [more] behind those handed on. *)
Lemma getResourceAtPath_extend (schema : ProviderSchema) (path more : string)
    (located : Located) :
  getResourceAtPath getFullProviderName schema path = Return (Some located) ->
  getResourceAtPath getFullProviderName schema (path +:+ "." +:+ more)
  = Return (Some (mkLocated (resource located) (parts located ++ split more))).
Proof.
  unfold getResourceAtPath.
  change (path +:+ "." +:+ more) with (path +:+ String "."%char more).
  rewrite split_append.
  destruct (split path) as [|first [|second others]]; try discriminate.
  cbn [app].
  destruct (String.eqb first "data"); [destruct others as [|third others]|];
    cbn [shift app propertyKey];
    destruct (truthyName _) as [key|]; try discriminate;
    destruct (provider_schemas schema ≫= _) as [[entry|member]|];
    try discriminate; cbn [reading]; rewrite ?bind_Return, ?bind_Throw;
    try discriminate;
    (destruct (endsWith _ "Provider");
     [ intros [= <-]; reflexivity
     | first
         [ discriminate
         | destruct (readProperty _ _) as [found|]; [|discriminate];
           destruct others as [|next others]; [discriminate|];
           intros [= <-]; reflexivity ] ]).
Qed.

(** X9. Resolution can be taken up again.  When a path with at least one
    segment after the resource resolves to a value, "<path>.<more>" resolves
    to what the segments of [more] give from that value: the walk through
    blocks and attributes from a block, the indexing of [resolveAttribute]
    from a type, and [null] from a member of [Object.prototype].
    [getBlockTypeAtPath] goes on in the same way from the block it
    returned. *)
Theorem resolution_extends (schema : ProviderSchema) (path more : string)
    (located : Located) (result : TypeResult) :
  getResourceAtPath getFullProviderName schema path = Return (Some located) ->
  parts located <> [] ->
  getTypeAtPath getFullProviderName schema path = Return (Defined result) ->
  getTypeAtPath getFullProviderName schema (path +:+ "." +:+ more)
  = continueFrom result (split more)
  /\ forall c : Container,
       getBlockTypeAtPath getFullProviderName schema path = Return (Some c) ->
       getBlockTypeAtPath getFullProviderName schema (path +:+ "." +:+ more)
       = match split more with
         | [] => Return (Some c)
         | next :: back => blockTypeLoop (Some c) (Some next) back
         end.
Proof.
  destruct located as [found [|part rest]]; cbn [parts resource];
    intros Hlocated Hparts Hresult; [congruence|].
  pose proof (getResourceAtPath_extend schema path more _ Hlocated)
    as Hextended.
  rewrite (getTypeAtPath_located _ _ _ _ Hlocated) in Hresult.
  rewrite (getTypeAtPath_located _ _ _ _ Hextended).
  pose proof (splitOn_not_nil "."%char more) as Hmore. fold (split more) in Hmore.
  cbn [resource parts shift fst snd app] in *.
  destruct (split more) as [|next back]; [congruence|].
  split.
  - now rewrite typeLoop_app, Hresult.
  - intros c Hblock.
    rewrite (getBlockTypeAtPath_located _ _ _ _ Hlocated) in Hblock.
    rewrite (getBlockTypeAtPath_located _ _ _ _ Hextended).
    cbn [resource parts shift fst snd app] in *.
    now rewrite blockTypeLoop_app, Hblock.
Qed.

(** X10. Failure is final.  When a path with at least one segment after the
    resource resolves to no value, no longer path does: [getTypeAtPath]
    returns [null] and [getDesiredType] the dynamic sentinel on
    "<path>.<more>", also where the shorter path gave [undefined]; and where
    [getBlockTypeAtPath] returned [null] it returns [null] again. *)
Theorem failure_extends (schema : ProviderSchema) (path more : string)
    (located : Located) :
  getResourceAtPath getFullProviderName schema path = Return (Some located) ->
  parts located <> [] ->
  (getTypeAtPath getFullProviderName schema path = Return Null
   \/ getTypeAtPath getFullProviderName schema path = Return Undefined ->
   getTypeAtPath getFullProviderName schema (path +:+ "." +:+ more)
   = Return Null
   /\ getDesiredType getFullProviderName (mkScope schema)
        (path +:+ "." +:+ more)
      = Return dynamic)
  /\ (getBlockTypeAtPath getFullProviderName schema path = Return None ->
      getBlockTypeAtPath getFullProviderName schema (path +:+ "." +:+ more)
      = Return None).
Proof.
  destruct located as [found [|part rest]]; cbn [parts resource];
    intros Hlocated Hparts; [congruence|].
  pose proof (getResourceAtPath_extend schema path more _ Hlocated)
    as Hextended.
  pose proof (splitOn_not_nil "."%char more) as Hmore. fold (split more) in Hmore.
  rewrite (getTypeAtPath_located _ _ _ _ Hlocated).
  rewrite (getBlockTypeAtPath_located _ _ _ _ Hlocated).
  unfold getDesiredType. cbn [providerSchema].
  rewrite (getTypeAtPath_located _ _ _ _ Hextended).
  rewrite (getBlockTypeAtPath_located _ _ _ _ Hextended).
  cbn [resource parts shift fst snd app].
  destruct (split more) as [|next back]; [congruence|]. split.
  - rewrite typeLoop_app.
    intros [-> | ->]; split; reflexivity.
  - rewrite blockTypeLoop_app. now intros ->.
Qed.

(** X11. A provider path without a property reads the text "undefined" as its
    property.  For "<provider>.<name>Provider" the loops of [getTypeAtPath]
    and of [getBlockTypeAtPath] shift an empty array and use the [undefined]
    they get as a key, so both return what they return for
    "<provider>.<name>Provider.undefined". *)
Theorem provider_pair_reads_undefined (schema : ProviderSchema)
    (path providerName resourceName key : string) (entry : Provider) :
  split path = [providerName; resourceName] ->
  providerName <> "data" ->
  endsWith resourceName "Provider" = true ->
  getFullProviderName schema providerName = Some key ->
  key <> "" ->
  provider_schemas schema ≫= (.!! key) = Some entry ->
  getTypeAtPath getFullProviderName schema path
  = getTypeAtPath getFullProviderName schema (path +:+ "." +:+ "undefined")
  /\ getBlockTypeAtPath getFullProviderName schema path
     = getBlockTypeAtPath getFullProviderName schema
         (path +:+ "." +:+ "undefined").
Proof.
  intros Hsplit Hdata Hsuffix Hname Hkey Hentry.
  pose proof (getResourceAtPath_provider getFullProviderName schema path
                providerName resourceName key [] entry
                Hsplit Hdata Hname Hkey Hentry Hsuffix) as Hpair.
  pose proof (getResourceAtPath_extend schema path "undefined" _ Hpair)
    as Hlonger.
  rewrite (getTypeAtPath_located _ _ _ _ Hpair).
  rewrite (getTypeAtPath_located _ _ _ _ Hlonger).
  rewrite (getBlockTypeAtPath_located _ _ _ _ Hpair).
  rewrite (getBlockTypeAtPath_located _ _ _ _ Hlonger).
  split; reflexivity.
Qed.

(** ** Where exceptions come from *)

Lemma blockTypeLoop_raises (rest : list string) :
  forall (currentSchema : option Container) (part : option string) (e : Error),
    blockTypeLoop currentSchema part rest = Throw e ->
    e = NotAFunction "hasOwnProperty".
Proof.
  induction rest as [|next rest IH]; intros currentSchema part e;
    (destruct (blockTypeNamed currentSchema part) as [[found|]|e'] eqn:Hnext;
     [ rewrite (blockTypeLoop_block _ _ _ _ Hnext)
     | now rewrite (blockTypeLoop_none _ _ _ Hnext)
     | rewrite (blockTypeLoop_raise _ _ _ _ Hnext); intros [= <-];
       exact (blockTypeNamed_raises _ _ _ Hnext) ]).
  - discriminate.
  - apply IH.
Qed.

Lemma typeLoop_raises (rest : list string) :
  forall (currentSchema : option Container) (part : option string) (e : Error),
    typeLoop currentSchema part rest = Throw e ->
    e = NotAFunction "hasOwnProperty".
Proof.
  induction rest as [|next rest IH]; intros currentSchema part e;
    (destruct (blockTypeNamed currentSchema part) as [[found|]|e'] eqn:Hnext;
     [ rewrite (typeLoop_block _ _ _ _ Hnext)
     | rewrite (typeLoop_attribute _ _ _ Hnext);
       destruct (attributeNamed currentSchema part) as [[attribute|]|e'']
         eqn:Hattribute;
       rewrite ?bind_Return, ?bind_Throw; try discriminate;
       intros [= <-]; exact (attributeNamed_raises _ _ _ Hattribute)
     | rewrite (typeLoop_raise _ _ _ _ Hnext); intros [= <-];
       exact (blockTypeNamed_raises _ _ _ Hnext) ]).
  - discriminate.
  - apply IH.
Qed.

(** X12. Where the walkers raise.  [getResourceAtPath] raises in two cases:
    on a path "data.<provider>" of two segments for whose provider the read
    of [provider_schemas] finds a value, at the call of [endsWith] on an
    undefined [resourceName]; and on a path "<provider>.<name>. ..." for whose
    provider the read finds no entry but a member of [Object.prototype], at
    the read of "<provider>_<name>" in its undefined resources, unless the
    name ends with "Provider".  [getBlockTypeAtPath] and [getTypeAtPath] pass
    that exception on and add one of their own, the failed call of
    [hasOwnProperty]; [getDesiredType] raises exactly when [getTypeAtPath]
    does. *)
Theorem walkers_raise (schema : ProviderSchema) (path : string) (e : Error) :
  (getResourceAtPath getFullProviderName schema path = Throw e
   <-> exists (isDataSource : bool) (providerName key : string)
              (others : list string) (providers : gmap string Provider)
              (found : Read Provider),
         split path = dataMarker isDataSource ++ providerName :: others
         /\ (isDataSource = false -> providerName <> "data" /\ others <> [])
         /\ getFullProviderName schema providerName = Some key
         /\ key <> ""
         /\ provider_schemas schema = Some providers
         /\ readProperty providers key = Some found
         /\ match others with
            | [] => e = TypeError "endsWith"
            | resourceName :: _ =>
                exists inherited : PrototypeMember,
                  found = Member inherited
                  /\ endsWith resourceName "Provider" = false
                  /\ e = TypeError (providerName +:+ "_" +:+ resourceName)
            end)
  /\ (getResourceAtPath getFullProviderName schema path = Throw e ->
      getBlockTypeAtPath getFullProviderName schema path = Throw e
      /\ getTypeAtPath getFullProviderName schema path = Throw e)
  /\ (getBlockTypeAtPath getFullProviderName schema path = Throw e ->
      getResourceAtPath getFullProviderName schema path = Throw e
      \/ e = NotAFunction "hasOwnProperty")
  /\ (getTypeAtPath getFullProviderName schema path = Throw e ->
      getResourceAtPath getFullProviderName schema path = Throw e
      \/ e = NotAFunction "hasOwnProperty")
  /\ (getDesiredType getFullProviderName (mkScope schema) path = Throw e
      <-> getTypeAtPath getFullProviderName schema path = Throw e).
Proof.
  split; [split|].
  - unfold getResourceAtPath.
    destruct (split path) as [|first [|second others]]; try discriminate.
    destruct (String.eqb_spec first "data") as [->|Hfirst];
      [destruct others as [|third others]|];
      cbn [shift propertyKey];
      destruct (truthyName (getFullProviderName schema _)) as [key|]
        eqn:Hname; try discriminate;
      apply truthyName_inv in Hname as [Hname Hkey];
      destruct (provider_schemas schema) as [providers|] eqn:Hproviders;
      try discriminate; cbn [mbind option_bind];
      destruct (readProperty providers key) as [found|] eqn:Hread;
      try discriminate; cbn [reading]; rewrite ?bind_Return, ?bind_Throw.
    + intros [= <-]. now exists true, second, key, [], providers, found.
    + destruct found as [entry|inherited];
        destruct (endsWith third "Provider") eqn:Hsuffix; try discriminate.
      * destruct (readProperty (_ entry) _); try discriminate.
        destruct others; discriminate.
      * intros [= <-].
        exists true, second, key, (third :: others), providers,
          (Member inherited).
        repeat split; eauto; discriminate.
    + destruct found as [entry|inherited];
        destruct (endsWith second "Provider") eqn:Hsuffix; try discriminate.
      * destruct (readProperty (_ entry) _); try discriminate.
        destruct others; discriminate.
      * intros [= <-].
        exists false, first, key, (second :: others), providers,
          (Member inherited).
        repeat split; eauto; discriminate.
  - intros (isDataSource & providerName & key & others & providers & found
            & Hsplit & Hplain & Hname & Hkey & Hproviders & Hread & Hcase).
    unfold getResourceAtPath. rewrite Hsplit.
    assert (String.eqb (hd "" (dataMarker isDataSource ++ [providerName]))
              "data" = isDataSource) as Hmarker.
    { destruct isDataSource; [reflexivity|].
      now apply String.eqb_neq, Hplain. }
    destruct isDataSource; cbn [dataMarker app hd] in *.
    + rewrite Hmarker. cbv beta iota zeta.
      destruct others as [|resourceName rest]; cbn [shift propertyKey];
        rewrite Hname, (truthyName_Some _ Hkey), Hproviders;
        cbn [mbind option_bind]; rewrite Hread; cbn [reading].
      * now subst e.
      * destruct Hcase as (inherited & -> & Hsuffix & ->).
        now rewrite bind_Return, Hsuffix.
    + destruct (Hplain eq_refl) as [_ Hothers].
      destruct others as [|resourceName rest]; [congruence|].
      rewrite Hmarker. cbv beta iota zeta. cbn [shift propertyKey].
      rewrite Hname, (truthyName_Some _ Hkey), Hproviders.
      cbn [mbind option_bind]. rewrite Hread. cbn [reading].
      destruct Hcase as (inherited & -> & Hsuffix & ->).
      now rewrite bind_Return, Hsuffix.
  - split; [|split; [|split]].
    + intros Hraise.
      now apply (raise_propagates getFullProviderName) in Hraise
        as (Hblock & _ & Htype & _).
    + unfold getBlockTypeAtPath.
      destruct (getResourceAtPath getFullProviderName schema path)
        as [[located|]|e']; rewrite ?bind_Return, ?bind_Throw;
        [|discriminate|intros [= ->]; now left].
      destruct (shift (parts located)) as [part rest].
      intros Hloop. right. exact (blockTypeLoop_raises _ _ _ _ Hloop).
    + unfold getTypeAtPath.
      destruct (getResourceAtPath getFullProviderName schema path)
        as [[located|]|e']; rewrite ?bind_Return, ?bind_Throw;
        [|discriminate|intros [= ->]; now left].
      destruct (shift (parts located)) as [part rest].
      intros Hloop. right. exact (typeLoop_raises _ _ _ _ Hloop).
    + unfold getDesiredType. cbn [providerSchema].
      destruct (getTypeAtPath getFullProviderName schema path)
        as [outcome|e']; rewrite ?bind_Return, ?bind_Throw; cbv beta;
        split; intros H; first [discriminate H | now injection H as ->].
Qed.

(** X13. Every exception of [getAttributeTypeAtPath]: the one of
    [getResourceAtPath]; the read of [block] when the provider located has no
    configuration block; the read of [attributes] when what was located has
    no block; and, with exactly one segment left, the read of the attribute
    name when that block has no [attributes].  A schema in which every
    provider has a configuration block and every block its attributes leaves
    only the first. *)
Theorem getAttributeTypeAtPath_raises (schema : ProviderSchema) (path : string)
    (e : Error) :
  getAttributeTypeAtPath getFullProviderName schema path = Throw e
  <-> getResourceAtPath getFullProviderName schema path = Throw e
      \/ exists located : Located,
           getResourceAtPath getFullProviderName schema path
           = Return (Some located)
           /\ match resource located with
              | None => e = TypeError "block"
              | Some found =>
                  match block found with
                  | None => e = TypeError "attributes"
                  | Some b =>
                      exists seg : string,
                        parts located = [seg]
                        /\ attributes b = None
                        /\ e = TypeError (replace "[]" "" seg)
                  end
              end.
Proof.
  unfold getAttributeTypeAtPath.
  destruct (getResourceAtPath getFullProviderName schema path)
    as [[[found rest]|]|e']; rewrite ?bind_Return, ?bind_Throw;
    cbn [resource parts].
  - destruct found as [found|]; cbn [reading];
      rewrite ?bind_Return, ?bind_Throw.
    + destruct (block found) as [b|] eqn:Hblock; cbn [reading];
        rewrite ?bind_Return, ?bind_Throw.
      * split.
        -- destruct rest as [|seg [|seg' rest]]; try discriminate.
           destruct (attributes b) as [declaredAttributes|] eqn:Hattributes;
             cbn [reading]; rewrite ?bind_Return, ?bind_Throw.
           ++ destruct (readProperty declaredAttributes _)
                as [[attribute|inherited]|]; try discriminate.
              destruct (descriptor (type attribute)) as [[kind element]|];
                [destruct (endsWith path "[]")|]; discriminate.
           ++ intros [= <-]. right. eexists. split; [reflexivity|].
              cbn [resource parts]. rewrite Hblock. now exists seg.
        -- intros [H|(located & [= <-] & H)]; [discriminate H|].
           cbn [resource parts] in H. rewrite Hblock in H.
           destruct H as (seg & -> & -> & ->). reflexivity.
      * split.
        -- intros [= <-]. right. eexists. split; [reflexivity|].
           cbn [resource]. now rewrite Hblock.
        -- intros [H|(located & [= <-] & H)]; [discriminate H|].
           cbn [resource] in H. rewrite Hblock in H. now subst e.
    + split.
      * intros [= <-]. right. eexists. split; reflexivity.
      * intros [H|(located & [= <-] & H)]; [discriminate H|].
        cbn [resource] in H. now subst e.
  - split; [discriminate|].
    intros [H|(located & H & _)]; discriminate H.
  - split; [intros [= ->]; now left|].
    intros [[= ->]|(located & H & _)]; [reflexivity|discriminate H].
Qed.

(** ** What the lookups return *)

(** X14. A value returned by [getAttributeTypeAtPath] comes from the one
    segment left after the resource, read without its first "[]" in the
    [attributes] of what was located.  When the name is an entry, the value
    carries the description and the flags of that entry, and its type is the
    declared type or, when the path ends with "[]" and the declared type is a
    descriptor, what stands at index 1 of the descriptor.  When the name is
    no entry, the value is the member of [Object.prototype] of that name. *)
Theorem getAttributeTypeAtPath_sound (schema : ProviderSchema) (path : string)
    (result : Read (AttributeOf Slot)) :
  getAttributeTypeAtPath getFullProviderName schema path
  = Return (Defined result) ->
  exists (found : Container) (b : Block)
         (declaredAttributes : gmap string Attribute) (seg : string),
    getResourceAtPath getFullProviderName schema path
    = Return (Some (mkLocated (Some found) [seg]))
    /\ block found = Some b
    /\ attributes b = Some declaredAttributes
    /\ match result with
       | Entry attribute =>
           exists entry : Attribute,
             declaredAttributes !! replace "[]" "" seg = Some entry
             /\ description attribute = description entry
             /\ required attribute = required entry
             /\ optional attribute = optional entry
             /\ computed attribute = computed entry
             /\ type attribute
                = match descriptor (type entry) with
                  | Some (_, element) =>
                      if endsWith path "[]" then element
                      else SType (type entry)
                  | None => SType (type entry)
                  end
       | Member inherited =>
           declaredAttributes !! replace "[]" "" seg = None
           /\ inheritedMember (replace "[]" "" seg) = Some inherited
       end.
Proof.
  unfold getAttributeTypeAtPath.
  destruct (getResourceAtPath getFullProviderName schema path)
    as [[[[found|] rest]|]|e]; run_completion; cbn [resource parts];
    try discriminate.
  destruct (block found) as [b|] eqn:Hblock; [|discriminate].
  destruct rest as [|seg [|seg' rest]]; try discriminate.
  destruct (attributes b) as [declaredAttributes|] eqn:Hattributes;
    [|discriminate].
  destruct (readProperty declaredAttributes (replace "[]" "" seg))
    as [[entry|inherited]|] eqn:Hentry; [| |discriminate].
  - apply readProperty_Entry in Hentry.
    intros Hreturn. exists found, b, declaredAttributes, seg.
    repeat split; try assumption.
    destruct (descriptor (type entry)) as [[kind element]|] eqn:Hshape;
      try destruct (endsWith path "[]");
      injection Hreturn as <-; exists entry; rewrite Hshape;
      repeat split; first [assumption | reflexivity].
  - apply readProperty_Member in Hentry as [Hentry Hinherited].
    intros [= <-]. exists found, b, declaredAttributes, seg.
    repeat split; assumption.
Qed.

(** X15. An answer of [getDesiredType] other than the dynamic sentinel is the
    type that [getTypeAtPath] found at the path; the empty type tag is never
    an answer. *)
Theorem getDesiredType_answers (scope : Scope) (path : string)
    (t : AttributeType) :
  getDesiredType getFullProviderName scope path = Return t ->
  t <> TPrimitive ""
  /\ (t = dynamic
      \/ getTypeAtPath getFullProviderName (providerSchema scope) path
         = Return (Defined (RAttributeType t))).
Proof.
  unfold getDesiredType.
  destruct (getTypeAtPath getFullProviderName (providerSchema scope) path)
    as [outcome|e]; rewrite ?bind_Return, ?bind_Throw; [|discriminate].
  intros [= <-].
  destruct outcome as [[c|[[|ch tag]|kind element|members]|inherited]| |];
    try (split; [discriminate|now left]);
    try (split; [discriminate|now right]).
  unfold desiredTypeOf, branchOf.
  destruct (hasVersion c); split; try discriminate; now left.
Qed.

(** ** A path that names an attribute *)

(** X16. A path "<provider>.<name>.<attribute>", with "data" ahead of it for a
    data source, resolves to the attribute the schema declares: when the
    resolver finds the provider, the provider holds a value for the name, the
    block of that value declares the attribute and no nested block of the
    same name, and neither dictionary of the block has an entry named
    "hasOwnProperty", [getTypeAtPath] returns the declared type;
    [getDesiredType] returns it too unless it is the empty tag; and
    [getAttributeTypeAtPath] returns the attribute as declared when the path
    holds no "[". *)
Theorem attribute_path_resolves (schema : ProviderSchema) (path : string)
    (isDataSource : bool) (providerName resourceName name key : string)
    (entry : Provider) (found : Container) (b : Block) (attribute : Attribute) :
  split path = dataMarker isDataSource ++ [providerName; resourceName; name] ->
  (isDataSource = false -> providerName <> "data") ->
  getFullProviderName schema providerName = Some key ->
  key <> "" ->
  provider_schemas schema ≫= (.!! key) = Some entry ->
  namedBy isDataSource entry providerName resourceName = Some found ->
  block found = Some b ->
  entryOf (attributes b) name = Some attribute ->
  entryOf (attributes b) "hasOwnProperty" = None ->
  entryOf (block_types b) name = None ->
  entryOf (block_types b) "hasOwnProperty" = None ->
  getTypeAtPath getFullProviderName schema path
  = Return (Defined (RAttributeType (type attribute)))
  /\ (type attribute <> TPrimitive "" ->
      getDesiredType getFullProviderName (mkScope schema) path
      = Return (type attribute))
  /\ (mentions "["%char path = false ->
      getAttributeTypeAtPath getFullProviderName schema path
      = Return (Defined (Entry (mkAttribute (SType (type attribute))
                                  (description attribute) (required attribute)
                                  (optional attribute) (computed attribute))))).
Proof.
  intros Hsplit Hplain Hname Hkey Hentry Hfound Hblock Hattribute Hsafe
         Hnested Hsafe'.
  pose proof (getResourceAtPath_named getFullProviderName schema path
                isDataSource providerName resourceName name key [] entry found
                Hsplit Hplain Hname Hkey Hentry Hfound) as Hlocated.
  assert (getTypeAtPath getFullProviderName schema path
          = Return (Defined (RAttributeType (type attribute)))) as Htype.
  { now apply (getTypeAtPath_attribute getFullProviderName schema path name
                 found b). }
  split; [exact Htype|]. split.
  - intros Htag. unfold getDesiredType. cbn [providerSchema].
    rewrite Htype, bind_Return. f_equal.
    destruct (type attribute) as [[|ch tag]|kind element|members];
      [congruence|reflexivity..].
  - intros Hpath.
    assert (mentions "["%char name = false) as Hseg.
    { apply (mentions_segment _ path); [exact Hpath|].
      rewrite Hsplit. apply in_or_app. right. cbn. auto. }
    unfold entryOf in Hattribute.
    destruct (attributes b) as [declaredAttributes|] eqn:Hattributes;
      [|discriminate]. cbn in Hattribute.
    unfold getAttributeTypeAtPath.
    rewrite Hlocated, bind_Return. cbn [resource parts reading].
    rewrite bind_Return, Hblock. cbn [reading].
    rewrite bind_Return, Hattributes. cbn [reading].
    rewrite bind_Return, (replace_without_marker name Hseg).
    rewrite (readProperty_own _ _ _ Hattribute).
    rewrite (endsWith_marker_mentions path Hpath).
    now destruct (descriptor (type attribute)) as [[kind element]|].
Qed.

End Coverage.

(** ** The array of provider requirements *)

(** X17. [getProviderRequirements] returns the array it was given, extended in
    place: after a call that resolves, the argument holds its former entries
    followed by the [terraformProviders] of the document read, and no other
    array changes.  Entries are never compared, so a second call with the
    same array and the same document adds them once more. *)
Theorem getProviderRequirements_extends_argument (T : Type) (provider : nat)
    (given : list T) (cdktfJson : CdktfJson T) (heap : gmap nat (list T)) :
  heap !! provider = Some given ->
  (forall reason : string,
      getProviderRequirements provider cdktfJson heap <> Rejected reason) ->
  exists once twice : gmap nat (list T),
    getProviderRequirements provider cdktfJson heap
    = Resolved (provider, once)
    /\ once !! provider = Some (given ++ listedIn cdktfJson)
    /\ (forall other : nat, other <> provider -> once !! other = heap !! other)
    /\ getProviderRequirements provider cdktfJson once
       = Resolved (provider, twice)
    /\ twice !! provider
       = Some (given ++ listedIn cdktfJson ++ listedIn cdktfJson).
Proof.
  intros Hgiven Hresolves.
  destruct cdktfJson as [|reason| |[listed|]];
    cbn [getProviderRequirements listedIn] in *.
  - exists heap, heap. rewrite !app_nil_r. auto.
  - now destruct (Hresolves reason).
  - now destruct (Hresolves _ eq_refl).
  - exists (push provider listed heap),
      (push provider listed (push provider listed heap)).
    unfold push. repeat split.
    + now rewrite lookup_alter_eq, Hgiven.
    + intros other Hother. now rewrite lookup_alter_ne.
    + rewrite !lookup_alter_eq, Hgiven. cbn. now rewrite app_assoc.
  - exists heap, heap. rewrite !app_nil_r. auto.
Qed.

(** ** The further statements on the example schemas *)

(** "aws.awsProvider.region" with a resolver that answers "constructor": the
    key is no entry of [provider_schemas], the read finds the function
    [Object], and no resource is handed on. *)
Lemma getResourceAtPath_spec_witness :
  getResourceAtPath alwaysConstructor awsSchema "aws.awsProvider.region"
  = Return (Some (mkLocated None ["region"])).
Proof.
  apply (proj2 (getResourceAtPath_spec alwaysConstructor awsSchema
                  "aws.awsProvider.region" (mkLocated None ["region"]))).
  exists false, "aws", "awsProvider", "constructor",
    {[ awsKey := awsEntry ]}, (Member (Method "constructor")).
  repeat split; first [reflexivity | discriminate].
Defined.

(** "data.gcp": the resolver knows no provider "gcp", and nothing raises. *)
Lemma unknown_provider_is_absent_witness :
  registryName awsSchema "gcp" = None
  /\ getResourceAtPath registryName awsSchema "data.gcp" = Return None
  /\ getBlockTypeAtPath registryName awsSchema "data.gcp" = Return None
  /\ getAttributeTypeAtPath registryName awsSchema "data.gcp" = Return Null
  /\ getTypeAtPath registryName awsSchema "data.gcp" = Return Null
  /\ getDesiredType registryName (mkScope awsSchema) "data.gcp" = Return dynamic.
Proof.
  split; [reflexivity|].
  apply (unknown_provider_is_absent registryName awsSchema "data.gcp" true
           "gcp" []);
    first [reflexivity | discriminate].
Defined.

(** "aws.bucket.name.more": the provider defines no resource "aws_bucket". *)
Lemma unknown_resource_is_absent_witness :
  readProperty (resource_schemas awsEntry) "aws_bucket" = None
  /\ getResourceAtPath registryName awsSchema "aws.bucket.name.more"
     = Return None
  /\ getBlockTypeAtPath registryName awsSchema "aws.bucket.name.more"
     = Return None
  /\ getAttributeTypeAtPath registryName awsSchema "aws.bucket.name.more"
     = Return Null
  /\ getTypeAtPath registryName awsSchema "aws.bucket.name.more" = Return Null
  /\ getDesiredType registryName (mkScope awsSchema) "aws.bucket.name.more"
     = Return dynamic.
Proof.
  split; [reflexivity|].
  apply (unknown_resource_is_absent registryName awsSchema
           "aws.bucket.name.more" false "aws" "bucket" awsKey
           ["name"; "more"] awsEntry);
    first [reflexivity | discriminate | now left].
Defined.

(** "aws.instance.constructor": neither a block nor an attribute.  The walkers
    that guard their reads return [null]; [getAttributeTypeAtPath] returns the
    function [Object]. *)
Lemma unknown_segment_is_absent_witness :
  getBlockTypeAtPath registryName awsSchema "aws.instance.constructor"
  = Return None
  /\ getTypeAtPath registryName awsSchema "aws.instance.constructor"
     = Return Null
  /\ getDesiredType registryName (mkScope awsSchema) "aws.instance.constructor"
     = Return dynamic
  /\ getAttributeTypeAtPath registryName awsSchema "aws.instance.constructor"
     = Return (Defined (Member (Method "constructor"))).
Proof.
  exact (unknown_segment_is_absent registryName awsSchema
           "aws.instance.constructor" "constructor" [] (CSchema aws_instance)
           _ _ eq_refl eq_refl eq_refl eq_refl eq_refl eq_refl eq_refl
           eq_refl).
Defined.

(** "aws.instance.ami": the two lookups read the same attribute. *)
Lemma attribute_lookups_agree_witness :
  getAttributeTypeAtPath registryName awsSchema "aws.instance.ami"
  = Return (Defined (Entry (mkAttribute (SType stringT) None None (Some true)
                              None)))
  /\ getTypeAtPath registryName awsSchema "aws.instance.ami"
     = Return (Defined (RAttributeType stringT)).
Proof.
  exact (attribute_lookups_agree registryName awsSchema "aws.instance.ami"
           "ami" (CSchema aws_instance) _ _ eq_refl eq_refl eq_refl eq_refl
           eq_refl eq_refl eq_refl).
Defined.

(** "aws.instance.ingress" resolves to a set of objects, and
    "aws.instance.ingress.from_port" to the member of the object. *)
Lemma resolution_extends_witness :
  getTypeAtPath registryName awsSchema "aws.instance.ingress"
  = Return (Defined (RAttributeType ingressT))
  /\ getTypeAtPath registryName awsSchema "aws.instance.ingress.from_port"
     = Return (Defined (RAttributeType numberT)).
Proof.
  assert (getTypeAtPath registryName awsSchema "aws.instance.ingress"
          = Return (Defined (RAttributeType ingressT))) as Hshort
    by (vm_compute; reflexivity).
  split; [exact Hshort|].
  refine (proj1 (resolution_extends registryName awsSchema
                   "aws.instance.ingress" "from_port"
                   (mkLocated (Some (CSchema aws_instance)) ["ingress"])
                   (RAttributeType ingressT) _ _ Hshort));
    first [reflexivity | discriminate].
Defined.

(** "aws.instance.nonexistent" fails, and so does
    "aws.instance.nonexistent.tags". *)
Lemma failure_extends_witness :
  getTypeAtPath registryName awsSchema "aws.instance.nonexistent" = Return Null
  /\ getTypeAtPath registryName awsSchema "aws.instance.nonexistent.tags"
     = Return Null
  /\ getDesiredType registryName (mkScope awsSchema)
       "aws.instance.nonexistent.tags"
     = Return dynamic.
Proof.
  assert (getTypeAtPath registryName awsSchema "aws.instance.nonexistent"
          = Return Null) as Hshort by (vm_compute; reflexivity).
  split; [exact Hshort|].
  refine (proj1 (failure_extends registryName awsSchema
                   "aws.instance.nonexistent" "tags"
                   (mkLocated (Some (CSchema aws_instance)) ["nonexistent"])
                   _ _)
            (or_introl Hshort));
    first [reflexivity | discriminate].
Defined.

(** "aws.awsProvider" and "aws.awsProvider.undefined". *)
Lemma provider_pair_reads_undefined_witness :
  getTypeAtPath registryName awsSchema "aws.awsProvider"
  = getTypeAtPath registryName awsSchema "aws.awsProvider.undefined"
  /\ getBlockTypeAtPath registryName awsSchema "aws.awsProvider"
     = getBlockTypeAtPath registryName awsSchema "aws.awsProvider.undefined".
Proof.
  apply (provider_pair_reads_undefined registryName awsSchema
           "aws.awsProvider" "aws" "awsProvider" awsKey awsEntry);
    first [reflexivity | discriminate].
Defined.

(** "aws.instance.ami" with a resolver that answers "constructor": the
    provider read is the function [Object], which has no [resource_schemas],
    and the read of "aws_instance" in them raises; the walkers raise with
    it. *)
Lemma walkers_raise_witness :
  getResourceAtPath alwaysConstructor awsSchema "aws.instance.ami"
  = Throw (TypeError "aws_instance")
  /\ getBlockTypeAtPath alwaysConstructor awsSchema "aws.instance.ami"
     = Throw (TypeError "aws_instance")
  /\ getTypeAtPath alwaysConstructor awsSchema "aws.instance.ami"
     = Throw (TypeError "aws_instance").
Proof.
  pose proof (walkers_raise alwaysConstructor awsSchema "aws.instance.ami"
                (TypeError "aws_instance")) as [Hlocator [Hpass _]].
  assert (getResourceAtPath alwaysConstructor awsSchema "aws.instance.ami"
          = Throw (TypeError "aws_instance")) as Hraise.
  { apply (proj2 Hlocator).
    exists false, "aws", "constructor", ["instance"; "ami"],
      {[ awsKey := awsEntry ]}, (Member (Method "constructor")).
    repeat split; try reflexivity; try discriminate.
    exists (Method "constructor"). repeat split. }
  split; [exact Hraise | exact (Hpass Hraise)].
Defined.

(** The attribute returned for "aws.instance.tags[]" is the entry "tags" with
    the element type of its map. *)
Lemma getAttributeTypeAtPath_sound_witness :
  exists (found : Container) (b : Block)
         (declaredAttributes : gmap string Attribute) (seg : string),
    getResourceAtPath registryName awsSchema "aws.instance.tags[]"
    = Return (Some (mkLocated (Some found) [seg]))
    /\ block found = Some b
    /\ attributes b = Some declaredAttributes
    /\ exists entry : Attribute,
         declaredAttributes !! replace "[]" "" seg = Some entry
         /\ None = description entry
         /\ None = required entry
         /\ Some true = optional entry
         /\ None = computed entry
         /\ SType stringT
            = match descriptor (type entry) with
              | Some (_, element) =>
                  if endsWith "aws.instance.tags[]" "[]" then element
                  else SType (type entry)
              | None => SType (type entry)
              end.
Proof.
  apply (getAttributeTypeAtPath_sound registryName awsSchema
           "aws.instance.tags[]"
           (Entry (mkAttribute (SType stringT) None None (Some true) None))).
  vm_compute. reflexivity.
Defined.

(** The answer for "aws.instance.tags" is the type found there. *)
Lemma getDesiredType_answers_witness :
  getDesiredType registryName (mkScope awsSchema) "aws.instance.tags"
  = Return (TCollection KMap stringT)
  /\ TCollection KMap stringT <> TPrimitive ""
  /\ (TCollection KMap stringT = dynamic
      \/ getTypeAtPath registryName awsSchema "aws.instance.tags"
         = Return (Defined (RAttributeType (TCollection KMap stringT)))).
Proof.
  assert (getDesiredType registryName (mkScope awsSchema) "aws.instance.tags"
          = Return (TCollection KMap stringT)) as Hanswer
    by (vm_compute; reflexivity).
  split; [exact Hanswer|].
  exact (getDesiredType_answers registryName (mkScope awsSchema)
           "aws.instance.tags" (TCollection KMap stringT) Hanswer).
Defined.

(** "data.aws.ami.id" on [awsSchema]. *)
Lemma attribute_path_resolves_witness :
  getTypeAtPath registryName awsSchema "data.aws.ami.id"
  = Return (Defined (RAttributeType stringT))
  /\ (type (plain stringT) <> TPrimitive "" ->
      getDesiredType registryName (mkScope awsSchema) "data.aws.ami.id"
      = Return stringT)
  /\ (mentions "["%char "data.aws.ami.id" = false ->
      getAttributeTypeAtPath registryName awsSchema "data.aws.ami.id"
      = Return (Defined (Entry (mkAttribute (SType stringT) None None
                                  (Some true) None)))).
Proof.
  assert (awsKey <> "") as Hkey by discriminate.
  exact (attribute_path_resolves registryName awsSchema "data.aws.ami.id"
           true "aws" "ami" "id" awsKey awsEntry (CSchema aws_ami) _
           (plain stringT) eq_refl (fun H => False_ind _ (diff_true_false H))
           eq_refl Hkey eq_refl eq_refl eq_refl eq_refl eq_refl eq_refl
           eq_refl).
Defined.

(** An array with one requirement and a document that lists one more. *)
Lemma getProviderRequirements_extends_argument_witness :
  exists once twice : gmap nat (list string),
    getProviderRequirements 0 (Document (Some ["google"]))
      {[ 0 := ["aws@~> 3.0"] ]}
    = Resolved (0, once)
    /\ once !! 0 = Some ["aws@~> 3.0"; "google"]
    /\ (forall other : nat,
          other <> 0 ->
          once !! other = ({[ 0 := ["aws@~> 3.0"] ]} : gmap nat (list string)) !! other)
    /\ getProviderRequirements 0 (Document (Some ["google"])) once
       = Resolved (0, twice)
    /\ twice !! 0 = Some ["aws@~> 3.0"; "google"; "google"].
Proof.
  apply (getProviderRequirements_extends_argument string 0 ["aws@~> 3.0"]
           (Document (Some ["google"])) {[ 0 := ["aws@~> 3.0"] ]});
    [reflexivity | discriminate].
Defined.
